(** * syntheseus: the reaction-model interface and the LocalRetro adapter

    A shallow embedding of [syntheseus/interface/models.py] and of
    [syntheseus/reaction_prediction/inference/local_retro.py].

    Python values are modelled by value: a [float] is an IEEE binary64
    number (Rocq's primitive floats), an [int] is a [Z], [Optional[T]] is
    [option T], a [Dict[str, Any]] is a [gmap string Any].  Code that can
    raise returns a [result]; code that allocates or mutates objects
    threads the object store explicitly. *)

From Stdlib Require Import ZArith Bool Lia Ascii String PrimFloat FloatOps FloatAxioms.
From stdpp Require Import base option list gmap strings.

Local Open Scope string_scope.
Local Open Scope Z_scope.
Local Open Scope list_scope.

(** ** Exceptions and the error monad *)

(** The exceptions that the modelled code raises.  [ValidationError] is
    pydantic's wrapper around the errors raised by the validators of a
    model; it carries the name of the model and the wrapped messages. *)
Inductive exception : Type :=
  | ValueError (msg : string)
  | OverflowError (msg : string)
  | IndexError (msg : string)
  | NotImplementedError
  | ValidationError (model : string) (errors : list string)
  | ConfigurationError (msg : string)
  | ExternalError (msg : string).

Inductive result (A : Type) : Type :=
  | Ok (a : A)
  | Raise (e : exception).
Arguments Ok {A} a.
Arguments Raise {A} e.

(** Sequencing: the first exception raised aborts what follows.  The
    instances give [result] stdpp's notation [x ← c; k]. *)
#[global] Instance result_ret : MRet result := fun _ a => Ok a.
#[global] Instance result_bind : MBind result := fun _ _ k r =>
  match r with
  | Ok a => k a
  | Raise e => Raise e
  end.

Definition raises {A} (r : result A) : Prop := exists e, r = Raise e.

(** ** Python's [math.exp] and [math.log]

    CPython wraps the C library: the C function is called, and a result
    that is NaN for a non-NaN argument, or infinite for a finite argument,
    is turned into an exception.  The C functions themselves are
    parameters of the development. *)
Module math.
Section Libm.
Variables libm_exp libm_log : float -> float.

(** [math_1] of [Modules/mathmodule.c]. *)
Definition math_1 (func : float -> float) (can_overflow : bool) (x : float)
  : result float :=
  let r := func x in
  if is_nan r && negb (is_nan x) then Raise (ValueError "math domain error")
  else if is_infinity r && is_finite x then
    if can_overflow then Raise (OverflowError "math range error")
    else Raise (ValueError "math domain error")
  else Ok r.

(** [m_log]: the C [log] with the platform-independent special cases. *)
Definition m_log (x : float) : float :=
  if is_finite x then
    if (0 <? x)%float then libm_log x
    else if (x =? 0)%float then neg_infinity
    else nan
  else if is_nan x then x
  else if (0 <? x)%float then x
  else nan.

Definition exp (x : float) : result float := math_1 libm_exp true x.
Definition log (x : float) : result float := math_1 m_log false x.
End Libm.
End math.

(** A C library to run the model on: truncated power series stand for
    the platform's [exp] and [log] where the model is evaluated on
    concrete values. *)
Definition series_exp (x : float) : float :=
  fold_right (fun k acc => 1 + x / k * acc)%float 1%float
    [1; 2; 3; 4; 5; 6; 7; 8; 9; 10; 11; 12; 13; 14; 15; 16]%float.

Definition series_log (x : float) : float :=
  let z := ((x - 1) / (x + 1))%float in
  (2 * z * fold_right (fun k acc => 1 / k + z * z * acc)%float 0%float
    [1; 3; 5; 7; 9; 11; 13; 15; 17; 19; 21; 23]%float)%float.

(** ** [Prediction] *)
Module Prediction.
Section Generic.
Context {InputType OutputType Any : Type}.
Variables libm_exp libm_log : float -> float.

Record t : Type := mk {
  input : InputType;
  output : OutputType;
  probability : option float;
  log_prob : option float;
  score : option float;
  reaction : option string;
  rxnid : option Z;
  metadata : option (gmap string Any)
}.

Definition get_prob (self : t) : result float :=
  match probability self with
  | Some p => Ok p
  | None =>
    match log_prob self with
    | Some l => math.exp libm_exp l
    | None =>
      Raise (ValueError
        "Prediction does not have associated probability or log prob value.")
    end
  end.

Definition get_log_prob (self : t) : result float :=
  match log_prob self with
  | Some l => Ok l
  | None =>
    match probability self with
    | Some p => math.log libm_log p
    | None =>
      Raise (ValueError
        "Prediction does not have associated log prob or probability value.")
    end
  end.

(** The root validator: it receives the field values and returns them,
    or raises. *)
Definition check_at_most_one_source_prob (values : t) : result t :=
  match probability values, log_prob values with
  | Some _, Some _ =>
    Raise (ValueError
      "Probability can be stored as probability or log probability, not both")
  | _, _ => Ok values
  end.

(** The constructor [Prediction(...)]: pydantic runs the root validator and wraps
    what it raises into a [ValidationError]. *)
Definition new (values : t) : result t :=
  match check_at_most_one_source_prob values with
  | Ok v => Ok v
  | Raise (ValueError msg) => Raise (ValidationError "Prediction" [msg])
  | Raise e => Raise e
  end.

(** [self.dict()] gives back the field values. *)
Definition dict (self : t) : t := self.

(** The two messages of the accessors when no confidence is stored. *)
Definition is_missing_confidence (e : exception) : bool :=
  match e with
  | ValueError msg =>
    bool_decide (msg =
      "Prediction does not have associated probability or log prob value.")
    || bool_decide (msg =
      "Prediction does not have associated log prob or probability value.")
  | _ => false
  end.

Definition fails_missing_confidence {A} (r : result A) : bool :=
  match r with
  | Raise e => is_missing_confidence e
  | Ok _ => false
  end.

(** At least one of the two sources of confidence is stored. *)
Definition has_confidence (self : t) : bool :=
  match probability self, log_prob self with
  | None, None => false
  | _, _ => true
  end.

(** At most one of the two sources of confidence is stored. *)
Definition at_most_one_source_prob (self : t) : bool :=
  match probability self, log_prob self with
  | Some _, Some _ => false
  | _, _ => true
  end.

(** The ranges that the fields are documented with: a probability in
    [0, 1] and a log-probability that is not positive. *)
Definition in_field_ranges (self : t) : bool :=
  match probability self with
  | Some p => (0 <=? p)%float && (p <=? 1)%float
  | None => true
  end
  && match log_prob self with
     | Some l => (l <=? 0)%float
     | None => true
     end.
End Generic.
Arguments t : clear implicits.
End Prediction.


(** ** Python sequences *)

(** The slice [lst[:stop]]: a negative [stop] counts from the end, and
    both cases are clipped to the bounds of the list. *)
Definition slice_to {A} (lst : list A) (stop : Z) : list A :=
  let len := Z.of_nat (length lst) in
  let stop' := if stop <? 0 then Z.max 0 (len + stop) else Z.min stop len in
  take (Z.to_nat stop') lst.

(** The subscript [lst[i]] for an index that is not negative. *)
Definition index {A} (lst : list A) (i : nat) : result A :=
  match lst !! i with
  | Some a => Ok a
  | None => Raise (IndexError "list index out of range")
  end.

(** [range(n)]: empty when [n] is not positive. *)
Definition range (n : Z) : list nat := seq 0%nat (Z.to_nat n).

(** A comprehension or [map] whose body can raise: the first exception
    aborts it. *)
Fixpoint traverse {A B} (f : A -> result B) (l : list A) : result (list B) :=
  match l with
  | [] => Ok []
  | a :: l' => b ← f a; bs ← traverse f l'; Ok (b :: bs)
  end.

(** ** [PredictionList] *)
Module PredictionList.
Section Generic.
Context {InputType OutputType Any : Type}.

Record t : Type := mk {
  input : InputType;
  predictions : list (Prediction.t InputType OutputType Any);
  metadata : option (gmap string Any)
}.

(** Validation of the [predictions] field: every item is validated as a
    [Prediction], and pydantic collects the errors of all the items. *)
Definition errors_of {A} (r : result A) : list string :=
  match r with
  | Ok _ => []
  | Raise (ValidationError _ errors) => errors
  | Raise _ => ["error"]
  end.

Fixpoint validate_predictions (items : list (Prediction.t InputType OutputType Any))
  : list (Prediction.t InputType OutputType Any) * list string :=
  match items with
  | [] => ([], [])
  | item :: items' =>
    let r := Prediction.new item in
    let '(vs, errors) := validate_predictions items' in
    match r with
    | Ok v => (v :: vs, errors)
    | Raise _ => (vs, errors_of r ++ errors)
    end
  end.

(** The constructor [PredictionList(...)]. *)
Definition new (fields : t) : result t :=
  let '(vs, errors) := validate_predictions (predictions fields) in
  match errors with
  | [] => Ok (mk (input fields) vs (metadata fields))
  | _ => Raise (ValidationError "PredictionList" errors)
  end.

(** [self.dict()]: the fields, with every prediction turned into the
    dictionary of its own fields. *)
Definition dict (self : t) : t :=
  mk (input self) (map Prediction.dict (predictions self)) (metadata self).

Definition truncated (self : t) (num_results : Z) : result t :=
  let fields := dict self in
  let fields :=
    mk (input fields) (slice_to (predictions fields) num_results)
       (metadata fields) in
  new fields.

(** *** Objects

    A [PredictionList] is an object: the store maps the references that
    are alive to their current value.  A method that builds a new
    object returns a reference that was not alive before. *)
Definition ref : Type := positive.

Definition alloc (v : t) (h : gmap ref t) : ref * gmap ref t :=
  let r := fresh (dom h) in (r, <[r := v]> h).

(** The call [self.truncated(num_results)] on the object behind [self]. *)
Definition call_truncated (self : ref) (num_results : Z) (h : gmap ref t)
  : result (ref * gmap ref t) :=
  match h !! self with
  | Some obj => v ← truncated obj num_results; Ok (alloc v h)
  | None => Raise (ExternalError "dead reference")
  end.

(** Every prediction of the list went through its constructor. *)
Definition constructed (self : t) : Prop :=
  Forall (fun p => Prediction.new p = Ok p) (predictions self).
End Generic.
Arguments t : clear implicits.
End PredictionList.

(** ** [ReactionModel] and its two variants *)
Module ReactionModel.

(** What a method of the interface may return: [is_forward] of the base
    class has the body [pass] and so returns [None]. *)
Inductive pyvalue : Type :=
  | PyNone
  | PyBool (b : bool).

(** Truth value of an object, as [not] and [if] test it. *)
Definition truthy (v : pyvalue) : bool :=
  match v with
  | PyNone => false
  | PyBool b => b
  end.

Definition py_not (v : pyvalue) : pyvalue := PyBool (negb (truthy v)).

Section Classes.
Context {Self Params : Type}.

(** The methods that a class body defines itself; [None] where it
    defines none and the method is inherited. *)
Record methods : Type := {
  def_is_forward : option (Self -> result pyvalue);
  def_is_backward : option (Self -> result pyvalue);
  def_get_parameters : option (Self -> result Params)
}.

(** A class is given by the bodies of its linearised ancestors, the most
    derived first; [ReactionModel] itself closes every such list and is
    left implicit. *)
Definition pyclass : Type := list methods.

(** Method resolution: the first class of the list that defines it. *)
Fixpoint resolve {M} (slot : methods -> option M) (cls : pyclass) : option M :=
  match cls with
  | [] => None
  | c :: cls' =>
    match slot c with
    | Some m => Some m
    | None => resolve slot cls'
    end
  end.

Definition is_forward (cls : pyclass) (self : Self) : result pyvalue :=
  match resolve def_is_forward cls with
  | Some m => m self
  | None => Ok PyNone
  end.

Definition is_backward (cls : pyclass) (self : Self) : result pyvalue :=
  match resolve def_is_backward cls with
  | Some m => m self
  | None => v ← is_forward cls self; Ok (py_not v)
  end.

Definition get_parameters (cls : pyclass) (self : Self) : result Params :=
  match resolve def_get_parameters cls with
  | Some m => m self
  | None => Raise NotImplementedError
  end.

Definition BackwardReactionModel : methods := {|
  def_is_forward := Some (fun _ => Ok (PyBool false));
  def_is_backward := None;
  def_get_parameters := None
|}.

Definition ForwardReactionModel : methods := {|
  def_is_forward := Some (fun _ => Ok (PyBool true));
  def_is_backward := None;
  def_get_parameters := None
|}.

(** A class body that defines neither [is_forward] nor [is_backward]. *)
Definition keeps_direction (c : methods) : bool :=
  match def_is_forward c, def_is_backward c with
  | None, None => true
  | _, _ => false
  end.
End Classes.
Arguments methods : clear implicits.
Arguments pyclass : clear implicits.
End ReactionModel.

(** ** Molecules *)

(** Modelled from the spec: the class [Molecule] of
    [syntheseus.interface.molecule], whose source is not among the files
    at hand: an opaque chemical-structure value with a textual
    serialisation, its SMILES string. *)
Record Molecule : Type := { smiles : string }.

(** ** Paths

    [pathlib]'s pure POSIX paths: a path is parsed into its root and its
    components; empty components and [.] are dropped, and two leading
    slashes, not more, are kept as a root of their own. *)
Module Path.

Record t : Type := mk {
  root : string;
  parts : list string
}.

(** [s.split("/")]. *)
Fixpoint split (s : string) : list string :=
  match s with
  | EmptyString => [""]
  | String c s' =>
    if Ascii.eqb c "/"%char then "" :: split s'
    else
      match split s' with
      | part :: rest => String c part :: rest
      | [] => [String c ""]
      end
  end.

(** [s.lstrip("/")]. *)
Fixpoint lstrip (s : string) : string :=
  match s with
  | String c s' => if Ascii.eqb c "/"%char then lstrip s' else s
  | EmptyString => s
  end.

Definition splitroot (s : string) : string * string :=
  let stripped := lstrip s in
  let slashes := (String.length s - String.length stripped)%nat in
  match slashes with
  | O => ("", s)
  | 2%nat => ("//", stripped)
  | _ => ("/", stripped)
  end.

Definition is_part (x : string) : bool :=
  negb (String.eqb x "") && negb (String.eqb x ".").

(** The constructor [Path(s)]. *)
Definition Path (s : string) : t :=
  let '(root, rel) := splitroot s in
  mk root (List.filter is_part (split rel)).

(** [self / key]: an absolute [key] replaces the path, a relative one
    extends it. *)
Definition truediv (self : t) (key : string) : t :=
  let other := Path key in
  if String.eqb (root other) "" then
    mk (root self) (parts self ++ parts other)
  else other.

(** [str(self)]. *)
Definition str (self : t) : string :=
  match root self, parts self with
  | EmptyString, [] => "."
  | root, parts => root +:+ String.concat "/" parts
  end.
End Path.

(** ** File lookup *)

(** Shell-style matching of a file name, with [*] for any run of
    characters. *)
Fixpoint fnmatch (pattern : string) : string -> bool :=
  match pattern with
  | EmptyString => fun name =>
    match name with EmptyString => true | _ => false end
  | String c pattern' =>
    if Ascii.eqb c "*"%char then
      fix star (name : string) : bool :=
        fnmatch pattern' name
        || match name with
           | EmptyString => false
           | String _ name' => star name'
           end
    else fun name =>
      match name with
      | EmptyString => false
      | String d name' => Ascii.eqb c d && fnmatch pattern' name'
      end
  end.

(** The files of a directory that match a pattern; a directory that does
    not exist has none. *)
Definition glob (fs : gmap string (list string)) (dir pattern : string)
  : list string :=
  filter (fun name => fnmatch pattern name = true) (default [] (fs !! dir)).

(** Modelled from the spec: [get_unique_file_in_dir] of
    [syntheseus.reaction_prediction.utils.inference], whose source is
    not among the files at hand: it locates the one file of the
    directory that matches the pattern, returned as its path below the
    directory, and fails with a configuration error when exactly one
    such file cannot be located. *)
Definition get_unique_file_in_dir (fs : gmap string (list string))
  (dir pattern : string) : result string :=
  match glob fs dir pattern with
  | [name] => Ok (Path.str (Path.truediv (Path.Path dir) name))
  | _ => Raise (ConfigurationError pattern)
  end.

Definition is_configuration_error (e : exception) : bool :=
  match e with ConfigurationError _ => true | _ => false end.

(** ** The LocalRetro adapter *)
Module LocalRetroModel.

(** The dictionary that [__init__] hands to [init_featurizer]. *)
Record InitArgs : Type := {
  mode : string;
  device : string;
  model_path : string;
  config_path : string;
  data_dir : Path.t;
  rxn_class_given : bool
}.

(** [self.args]: the initial entries, what [init_featurizer] added to
    them, and the entries that the adapter sets later. *)
Record Args {Featurizers Table : Type} : Type := {
  init : InitArgs;
  featurizers : Featurizers;
  atom_templates : option Table;
  bond_templates : option Table;
  template_infos : option Table;
  top_k : option Z;
  raw_predictions : option (list (list string))
}.
Arguments Args : clear implicits.

(** What LocalRetro, DGL-LifeSci, torch and Python's [eval] provide.
    None of it is code of this repository; the adapter is verified
    against this interface.  The loaders read files, and so take the
    file system: a map from the directories to the names of their files.
    [predict] stands for the two tensors of logits that the adapter
    keeps of its result, and [get_k_predictions] for the list of rendered
    candidates that the adapter reads in its result. *)
Class External : Type := {
  Featurizers : Type;
  Table : Type;
  Model : Type;
  Params : Type;
  Graph : Type;
  Batch : Type;
  Tensor : Type;
  EditType : Type;
  Site : Type;
  BagMolecule : Type;
  Any : Type;
  init_featurizer : InitArgs -> result Featurizers;
  load_model : gmap string (list string) -> Args Featurizers Table -> result Model;
  load_templates :
    gmap string (list string) -> Args Featurizers Table ->
    result (Table * Table * Table);
  parameters : Model -> Params;
  smiles_to_bigraph : string -> Featurizers -> result Graph;
  collate_molgraphs_test : list Graph -> result Batch;
  predict : Args Featurizers Table -> Model -> Batch -> result (Tensor * Tensor);
  Softmax : Tensor -> Tensor;
  get_bg_partition : Batch -> result (list Graph * list Z * list Z);
  tensor_slice : Tensor -> Z -> Z -> Tensor;
  combined_edit :
    Graph -> Tensor -> Tensor -> Z ->
    result (list EditType * list (Site * Site) * list float);
  str_type : EditType -> string;
  str_site : Site -> string;
  format_3f : float -> string;
  get_k_predictions : nat -> Args Featurizers Table -> result (list string);
  eval : string -> result (string * float);
  bag_from_smiles : string -> BagMolecule
}.

Section Adapter.
Context `{External}.

Definition BackwardPrediction : Type := Prediction.t Molecule BagMolecule Any.
Definition BackwardPredictionList : Type :=
  PredictionList.t Molecule BagMolecule Any.

Record t : Type := {
  args : Args Featurizers Table;
  model : Model
}.

Definition __init__ (fs : gmap string (list string)) (model_dir : string)
  (device : string) : result t :=
  let data_dir := Path.truediv (Path.Path model_dir) "data" in
  model_path ← get_unique_file_in_dir fs model_dir "*.pth";
  config_path ← get_unique_file_in_dir fs model_dir "*.json";
  let init := {|
    mode := "test";
    device := device;
    model_path := model_path;
    config_path := config_path;
    data_dir := data_dir;
    rxn_class_given := false
  |} in
  featurizers ← init_featurizer init;
  let args := {|
    init := init;
    featurizers := featurizers;
    atom_templates := None;
    bond_templates := None;
    template_infos := None;
    top_k := None;
    raw_predictions := None
  |} in
  model ← load_model fs args;
  '(atoms, bonds, infos) ← load_templates fs args;
  Ok {|
    args := {|
      init := init;
      featurizers := featurizers;
      atom_templates := Some atoms;
      bond_templates := Some bonds;
      template_infos := Some infos;
      top_k := None;
      raw_predictions := None
    |};
    model := model
  |}.

Definition get_parameters (self : t) : result Params :=
  Ok (parameters (model self)).

(** The class: its own body, then [BackwardReactionModel]. *)
Definition class : ReactionModel.pyclass t Params :=
  [ {| ReactionModel.def_is_forward := None;
       ReactionModel.def_is_backward := None;
       ReactionModel.def_get_parameters := Some get_parameters |};
    ReactionModel.BackwardReactionModel ].

Definition _mols_to_batch (self : t) (mols : list Molecule) : result Batch :=
  graphs ← traverse
    (fun mol => smiles_to_bigraph (smiles mol) (featurizers (args self))) mols;
  collate_molgraphs_test graphs.
(** Modelled from the spec: [process_raw_smiles_outputs] of
    [syntheseus.reaction_prediction.utils.inference], whose source is
    not among the files at hand: each decoded candidate is packaged into
    a [Prediction] for the input, with its [output] and the fields of
    its keyword dictionary, and the candidates keep their order in the
    list that is returned. *)
Definition process_raw_smiles_outputs (input : Molecule)
  (output_list : list string) (kwargs_list : list (gmap string float))
  : result BackwardPredictionList :=
  predictions ← traverse
    (fun '(raw_output, kwargs) =>
       Prediction.new {|
         Prediction.input := input;
         Prediction.output := bag_from_smiles raw_output;
         Prediction.probability := kwargs !! "probability";
         Prediction.log_prob := kwargs !! "log_prob";
         Prediction.score := kwargs !! "score";
         Prediction.reaction := None;
         Prediction.rxnid := None;
         Prediction.metadata := Some ∅
       |})
    (zip output_list kwargs_list);
  PredictionList.new {|
    PredictionList.input := input;
    PredictionList.predictions := predictions;
    PredictionList.metadata := Some ∅
  |}.

(** What a decoded candidate, a SMILES string and its probability, is
    packaged into, and the list made of the candidates of one input. *)
Definition prediction_of (input : Molecule) (candidate : string * float)
  : BackwardPrediction :=
  Prediction.mk input (bag_from_smiles candidate.1) (Some candidate.2) None
    None None None (Some ∅).

Definition list_of (input : Molecule) (candidates : list (string * float))
  : BackwardPredictionList :=
  PredictionList.mk input (map (prediction_of input) candidates) (Some ∅).





(** The text of candidate [i] of one input. *)
Definition render_raw_prediction (pred_types : list EditType)
  (pred_sites : list (Site * Site)) (pred_scores : list float) (i : nat)
  : result string :=
  type ← index pred_types i;
  sites ← index pred_sites i;
  score ← index pred_scores i;
  Ok ("(" +:+ str_type type +:+ ", " +:+ str_site sites.1 +:+ ", "
      +:+ str_site sites.2 +:+ ", " +:+ format_3f score +:+ ")").

(** The first loop of [_build_batch_predictions], over
    [zip(inputs, graphs, nodes_sep, edges_sep)]: the rows appended to
    [self.args["raw_predictions"]]. *)
Fixpoint raw_predictions_loop (num_results : Z)
  (batch_atom_logits batch_bond_logits : Tensor)
  (items : list (Molecule * (Graph * (Z * Z)))) (start_node start_edge : Z)
  : result (list (list string)) :=
  match items with
  | [] => Ok []
  | (input, (graph, (end_node, end_edge))) :: items' =>
    '(pred_types, pred_sites, pred_scores) ←
      combined_edit graph
        (tensor_slice batch_atom_logits start_node end_node)
        (tensor_slice batch_bond_logits start_edge end_edge)
        num_results;
    raw_predictions ←
      traverse (render_raw_prediction pred_types pred_sites pred_scores)
        (range num_results);
    rows ← raw_predictions_loop num_results batch_atom_logits
      batch_bond_logits items' end_node end_edge;
    Ok ((smiles input :: raw_predictions) :: rows)
  end.

(** The candidates of input [idx], decoded: the rendered results of
    [get_k_predictions], evaluated. *)
Definition raw_results (args : Args Featurizers Table) (idx : nat)
  : result (list (string * float)) :=
  rendered ← get_k_predictions idx args;
  traverse eval rendered.

(** The second loop, over [enumerate(inputs)]. *)
Fixpoint batch_predictions_loop (args : Args Featurizers Table) (idx : nat)
  (inputs : list Molecule) : result (list BackwardPredictionList) :=
  match inputs with
  | [] => Ok []
  | input :: inputs' =>
    raw_results ← raw_results args idx;
    let raw_outputs := map fst raw_results in
    let probabilities := map snd raw_results in
    predictions ← process_raw_smiles_outputs input raw_outputs
      (map (fun probability => {[ "probability" := probability ]})
         probabilities);
    batch_predictions ← batch_predictions_loop args (S idx) inputs';
    Ok (predictions :: batch_predictions)
  end.

(** [self.args] once [top_k] and [raw_predictions] are set. *)
Definition with_raw_predictions (args : Args Featurizers Table)
  (num_results : Z) (rows : list (list string)) : Args Featurizers Table := {|
  init := init args;
  featurizers := featurizers args;
  atom_templates := atom_templates args;
  bond_templates := bond_templates args;
  template_infos := template_infos args;
  top_k := Some num_results;
  raw_predictions := Some rows
|}.

(** The method returns its result together with the adapter as the call
    leaves it: [self.args] is updated in place. *)
Definition _build_batch_predictions (self : t) (batch : Batch)
  (num_results : Z) (inputs : list Molecule)
  (batch_atom_logits batch_bond_logits : Tensor)
  : result (list BackwardPredictionList * t) :=
  '(graphs, nodes_sep, edges_sep) ← get_bg_partition batch;
  rows ← raw_predictions_loop num_results batch_atom_logits batch_bond_logits
    (zip inputs (zip graphs (zip nodes_sep edges_sep))) 0 0;
  let args' := with_raw_predictions (args self) num_results rows in
  batch_predictions ← batch_predictions_loop args' 0%nat inputs;
  Ok (batch_predictions, {| args := args'; model := model self |}).

Definition __call__ (self : t) (inputs : list Molecule) (num_results : Z)
  : result (list BackwardPredictionList * t) :=
  batch ← _mols_to_batch self inputs;
  '(batch_atom_logits, batch_bond_logits) ←
    predict (args self) (model self) batch;
  let batch_atom_logits := Softmax batch_atom_logits in
  let batch_bond_logits := Softmax batch_bond_logits in
  _build_batch_predictions self batch num_results inputs
    batch_atom_logits batch_bond_logits.
End Adapter.
End LocalRetroModel.

(** ** A small instance to run the model on *)
Module Example.
Import LocalRetroModel.

(** A stand-in for the external model: every molecule gets the same two
    candidates, rendered as the texts [r1] and [r2]; the templates are
    read from the [*.csv] files of the data directory. *)
#[local] Instance external : External := {|
  Featurizers := unit;
  Table := list string;
  Model := list float;
  Params := list float;
  Graph := string;
  Batch := list string;
  Tensor := list float;
  EditType := string;
  Site := nat;
  BagMolecule := list Molecule;
  Any := unit;
  init_featurizer := fun _ => Ok tt;
  load_model := fun _ _ => Ok [0.5; 0.25]%float;
  load_templates := fun fs a =>
    match glob fs (Path.str (data_dir (init a))) "*.csv" with
    | [] => Raise (ExternalError "FileNotFoundError")
    | files => Ok (files, files, files)
    end;
  parameters := fun m => m;
  smiles_to_bigraph := fun s _ => Ok s;
  collate_molgraphs_test := fun graphs => Ok graphs;
  predict := fun _ m _ => Ok (m, m);
  Softmax := fun t => t;
  get_bg_partition := fun batch =>
    Ok (batch, map (fun _ => 1) batch, map (fun _ => 1) batch);
  tensor_slice := fun t _ _ => t;
  combined_edit := fun _ _ _ n =>
    Ok (replicate (Z.to_nat n) "a", replicate (Z.to_nat n) (0%nat, 1%nat),
        replicate (Z.to_nat n) 0.875%float);
  str_type := fun s => s;
  str_site := fun _ => "0";
  format_3f := fun _ => "0.875";
  get_k_predictions := fun _ _ => Ok ["r1"; "r2"];
  eval := fun s =>
    if String.eqb s "r1" then Ok ("CC.O", 0.75%float)
    else if String.eqb s "r2" then Ok ("C.CO", 0.5%float)
    else Raise (ExternalError "SyntaxError");
  bag_from_smiles := fun s => [ {| smiles := s |} ]
|}.

Definition ethanol : Molecule := {| smiles := "CCO" |}.

(** A directory with its checkpoint, its configuration and its data. *)
Definition complete : gmap string (list string) :=
  {[ "m" := ["model.pth"; "config.json"; "README"];
     "m/data" := ["atom_templates.csv"; "bond_templates.csv"] ]}.

(** The same without the checkpoint. *)
Definition no_checkpoint : gmap string (list string) :=
  {[ "m" := ["config.json"; "README"];
     "m/data" := ["atom_templates.csv"; "bond_templates.csv"] ]}.

(** With the checkpoint and the configuration, without the data. *)
Definition no_data : gmap string (list string) :=
  {[ "m" := ["model.pth"; "config.json"; "README"] ]}.

Definition adapter : LocalRetroModel.t := {|
  args := {|
    init := {| mode := "test"; device := "cpu"; model_path := "m/model.pth";
               config_path := "m/config.json"; data_dir := Path.mk "" ["m"; "data"];
               rxn_class_given := false |};
    featurizers := tt;
    atom_templates := Some ["atom_templates.csv"; "bond_templates.csv"];
    bond_templates := Some ["atom_templates.csv"; "bond_templates.csv"];
    template_infos := Some ["atom_templates.csv"; "bond_templates.csv"];
    top_k := None;
    raw_predictions := None
  |};
  model := [0.5; 0.25]%float
|}.

Definition prediction (p : float) : Prediction.t string unit unit :=
  Prediction.mk "CCO" tt (Some p) None None None None None.

(** A list of three predictions, and a store that holds it. *)
Definition three : PredictionList.t string unit unit :=
  PredictionList.mk "CCO"
    [prediction 0.5; prediction 0.25; prediction 0.125]%float None.

Definition store : gmap PredictionList.ref (PredictionList.t string unit unit) :=
  {[ 1%positive := three ]}.
End Example.

(** ** An instance that fails

    A stand-in for an external model that goes wrong: a molecule with an
    empty SMILES has no graph, a single edit is proposed whatever number
    is asked for, and the candidates of every input but the first
    contain a text that does not evaluate. *)
Module Faulty.
Import LocalRetroModel.

#[local] Instance external : External := {|
  Featurizers := unit;
  Table := list string;
  Model := list float;
  Params := list float;
  Graph := string;
  Batch := list string;
  Tensor := list float;
  EditType := string;
  Site := nat;
  BagMolecule := list Molecule;
  Any := unit;
  init_featurizer := fun _ => Ok tt;
  load_model := fun _ _ => Ok [0.5; 0.25]%float;
  load_templates := fun fs a =>
    match glob fs (Path.str (data_dir (init a))) "*.csv" with
    | [] => Raise (ExternalError "FileNotFoundError")
    | files => Ok (files, files, files)
    end;
  parameters := fun m => m;
  smiles_to_bigraph := fun s _ =>
    if String.eqb s "" then Raise (ExternalError "invalid SMILES") else Ok s;
  collate_molgraphs_test := fun graphs => Ok graphs;
  predict := fun _ m _ => Ok (m, m);
  Softmax := fun t => t;
  get_bg_partition := fun batch =>
    Ok (batch, map (fun _ => 1) batch, map (fun _ => 1) batch);
  tensor_slice := fun t _ _ => t;
  combined_edit := fun _ _ _ _ => Ok (["a"], [(0%nat, 1%nat)], [0.875%float]);
  str_type := fun s => s;
  str_site := fun _ => "0";
  format_3f := fun _ => "0.875";
  get_k_predictions := fun idx _ =>
    match idx with
    | O => Ok ["r1"]
    | S _ => Ok ["r1"; "bad"]
    end;
  eval := fun s =>
    if String.eqb s "r1" then Ok ("CC.O", 0.75%float)
    else Raise (ExternalError "SyntaxError");
  bag_from_smiles := fun s => [ {| smiles := s |} ]
|}.

Definition adapter : @LocalRetroModel.t external := {|
  args := {|
    init := {| mode := "test"; device := "cpu"; model_path := "m/model.pth";
               config_path := "m/config.json"; data_dir := Path.mk "" ["m"; "data"];
               rxn_class_given := false |};
    featurizers := tt;
    atom_templates := Some ["atom_templates.csv"];
    bond_templates := Some ["bond_templates.csv"];
    template_infos := Some ["template_infos.csv"];
    top_k := None;
    raw_predictions := None
  |};
  model := [0.5; 0.25]%float
|}.

(** A prediction that was given both sources of confidence after its
    construction, at the end of a list of three. *)
Definition both : Prediction.t string unit unit :=
  Prediction.mk "CCO" tt (Some 0.125%float) (Some (-3)%float)
    None None None None.

Definition spoilt : PredictionList.t string unit unit :=
  PredictionList.mk "CCO"
    [Example.prediction 0.5; Example.prediction 0.25; both]%float None.
End Faulty.
(** * Properties *)

(** ** Construction of a [Prediction] *)
Section PredictionConstruction.
Context {InputType OutputType Any : Type}.
Implicit Types (i : InputType) (o : OutputType) (p l : float)
  (md : option (gmap string Any)).

(** C1: whatever the two floats are, a [Prediction] given both
    [probability] and [log_prob] is refused at construction with a
    validation error; with exactly one of them, or with neither, the
    construction succeeds and stores the values as given. *)
Theorem new_at_most_one_source_prob i o p l sc re rx md :
  Prediction.new (Prediction.mk i o (Some p) (Some l) sc re rx md)
    = Raise (ValidationError "Prediction"
        ["Probability can be stored as probability or log probability, not both"])
  /\ Prediction.new (Prediction.mk i o (Some p) None sc re rx md)
    = Ok (Prediction.mk i o (Some p) None sc re rx md)
  /\ Prediction.new (Prediction.mk i o None (Some l) sc re rx md)
    = Ok (Prediction.mk i o None (Some l) sc re rx md)
  /\ Prediction.new (Prediction.mk i o None None sc re rx md)
    = Ok (Prediction.mk i o None None sc re rx md).
Proof. repeat split. Qed.
End PredictionConstruction.

(** ** Facts on floats *)

Lemma is_finite_true x :
  is_finite x = true -> is_nan x = false /\ is_infinity x = false.
Proof.
  unfold is_finite. intros H. apply negb_true_iff in H.
  apply orb_false_iff in H. exact H.
Qed.

(** A float in the interval (0, 1] is finite: the comparisons of IEEE 754
    are false on NaN, and no infinity lies in the interval. *)
Lemma unit_interval_finite p :
  (0 <? p)%float = true -> (p <=? 1)%float = true -> is_finite p = true.
Proof.
  intros Hlt Hle. unfold is_finite, is_nan, is_infinity.
  rewrite ltb_spec in Hlt. rewrite leb_spec in Hle.
  rewrite !FloatAxioms.eqb_spec, abs_spec.
  change (Prim2SF 0) with (SpecFloat.S754_zero false) in Hlt.
  change (Prim2SF infinity) with (SpecFloat.S754_infinity false).
  destruct (Prim2SF p) as [s | s | | s m e]; try discriminate.
  - destruct s; [discriminate | vm_compute in Hle; discriminate].
  - destruct s; [discriminate |].
    unfold SpecFloat.SFeqb. simpl.
    rewrite Z.compare_refl, Pos.compare_cont_refl. reflexivity.
Qed.

(** ** The confidence accessors *)
Section PredictionAccessors.
Context {InputType OutputType Any : Type}.
Variables libm_exp libm_log : float -> float.
Implicit Types (i : InputType) (o : OutputType) (p l : float)
  (md : option (gmap string Any))
  (self : Prediction.t InputType OutputType Any).

Lemma math_1_finite func can_overflow x :
  is_finite (func x) = true -> math.math_1 func can_overflow x = Ok (func x).
Proof.
  intros H. apply is_finite_true in H as [Hnan Hinf].
  unfold math.math_1. rewrite Hnan, Hinf. reflexivity.
Qed.

Lemma math_log_unit_interval p :
  (0 <? p)%float = true -> (p <=? 1)%float = true ->
  is_finite (libm_log p) = true ->
  math.log libm_log p = Ok (libm_log p).
Proof.
  intros Hlt Hle Hfin.
  assert (Hm : math.m_log libm_log p = libm_log p).
  { unfold math.m_log. rewrite (unit_interval_finite p Hlt Hle), Hlt.
    reflexivity. }
  unfold math.log. rewrite <- Hm in Hfin |- *.
  apply math_1_finite. exact Hfin.
Qed.

(** What [math.exp] and [math.log] raise is never taken for a missing
    confidence. *)
Lemma math_1_not_missing func can_overflow x :
  Prediction.fails_missing_confidence (math.math_1 func can_overflow x) = false.
Proof.
  unfold math.math_1.
  destruct (is_nan (func x) && negb (is_nan x)); [reflexivity |].
  destruct (is_infinity (func x) && is_finite x); [| reflexivity].
  destruct can_overflow; reflexivity.
Qed.

(** C3: a prediction built from a probability [p] in (0, 1] gives back [p]
    itself as its probability and the platform's logarithm of [p],
    [math.log(p)], as its log-probability; one built from a
    log-probability [l <= 0] gives back [l] itself and the platform's
    exponential [math.exp(l)].  Neither accessor raises there, the C
    library returning finite values on these ranges. *)
Theorem get_prob_get_log_prob_conversions i o sc re rx md p l :
  (0 <? p)%float = true -> (p <=? 1)%float = true ->
  is_finite (libm_log p) = true ->
  (l <=? 0)%float = true ->
  is_finite (libm_exp l) = true ->
  let from_p := Prediction.mk i o (Some p) None sc re rx md in
  let from_l := Prediction.mk i o None (Some l) sc re rx md in
  Prediction.new from_p = Ok from_p
  /\ Prediction.get_prob libm_exp from_p = Ok p
  /\ Prediction.get_log_prob libm_log from_p = math.log libm_log p
  /\ math.log libm_log p = Ok (libm_log p)
  /\ Prediction.new from_l = Ok from_l
  /\ Prediction.get_log_prob libm_log from_l = Ok l
  /\ Prediction.get_prob libm_exp from_l = math.exp libm_exp l
  /\ math.exp libm_exp l = Ok (libm_exp l).
Proof.
  intros Hlt Hle Hlog Hl Hexp from_p from_l.
  repeat split.
  - apply math_log_unit_interval; assumption.
  - apply math_1_finite; assumption.
Qed.

(** C4: with neither [probability] nor [log_prob] stored, [get_prob] and
    [get_log_prob] raise the error that reports the missing value; and
    for any prediction, an accessor fails with that error exactly when
    neither field is stored. *)
Theorem accessors_missing_confidence i o sc re rx md self :
  Prediction.get_prob libm_exp (Prediction.mk i o None None sc re rx md)
    = Raise (ValueError
        "Prediction does not have associated probability or log prob value.")
  /\ Prediction.get_log_prob libm_log (Prediction.mk i o None None sc re rx md)
    = Raise (ValueError
        "Prediction does not have associated log prob or probability value.")
  /\ Prediction.fails_missing_confidence (Prediction.get_prob libm_exp self)
    = negb (Prediction.has_confidence self)
  /\ Prediction.fails_missing_confidence (Prediction.get_log_prob libm_log self)
    = negb (Prediction.has_confidence self).
Proof.
  repeat split.
  - destruct self as [i' o' [p |] [l |] ? ? ? ?]; try reflexivity.
    apply math_1_not_missing.
  - destruct self as [i' o' [p |] [l |] ? ? ? ?]; try reflexivity.
    apply math_1_not_missing.
Qed.
End PredictionAccessors.

(** The conversions at the probability 1/2 and at the log-probability -1,
    the C library being the power series. *)
Lemma get_prob_get_log_prob_conversions_witness :
  let from_p := Prediction.mk (Any := unit) "CCO" tt (Some 0.5%float) None
                  None None None None in
  let from_l := Prediction.mk (Any := unit) "CCO" tt None (Some (-1)%float)
                  None None None None in
  Prediction.new from_p = Ok from_p
  /\ Prediction.get_prob series_exp from_p = Ok 0.5%float
  /\ Prediction.get_log_prob series_log from_p = math.log series_log 0.5
  /\ math.log series_log 0.5 = Ok (series_log 0.5)
  /\ Prediction.new from_l = Ok from_l
  /\ Prediction.get_log_prob series_log from_l = Ok (-1)%float
  /\ Prediction.get_prob series_exp from_l = math.exp series_exp (-1)
  /\ math.exp series_exp (-1) = Ok (series_exp (-1)).
Proof.
  apply (get_prob_get_log_prob_conversions series_exp series_log
           "CCO" tt None None None None 0.5%float (-1)%float);
    vm_compute; reflexivity.
Defined.

(** ** What construction checks *)
Section PredictionInvariant.
Context {InputType OutputType Any : Type}.
Implicit Types values v : Prediction.t InputType OutputType Any.

Lemma new_Ok_inv values v :
  Prediction.new values = Ok v ->
  v = values /\ (Prediction.probability v = None \/ Prediction.log_prob v = None).
Proof.
  unfold Prediction.new, Prediction.check_at_most_one_source_prob.
  destruct values as [i o [p |] [l |] sc re rx md]; simpl;
    intros H; inversion H; subst; simpl; auto.
Qed.

Lemma new_Ok_intro values :
  Prediction.probability values = None \/ Prediction.log_prob values = None ->
  Prediction.new values = Ok values.
Proof.
  unfold Prediction.new, Prediction.check_at_most_one_source_prob.
  intros [-> | ->]; [reflexivity |].
  destruct (Prediction.probability values); reflexivity.
Qed.

(** C5, as the code has it: construction succeeds exactly when at most
    one of [probability] and [log_prob] is given, and then stores the
    values as they are; otherwise it fails with a validation error.  The
    floats themselves are never inspected, so the invariant of a
    constructed [Prediction] is that at most one of the two is set. *)
Theorem new_checks_only_exclusivity values :
  Prediction.new values =
    if Prediction.at_most_one_source_prob values then Ok values
    else Raise (ValidationError "Prediction"
      ["Probability can be stored as probability or log probability, not both"]).
Proof.
  destruct values as [i o [p |] [l |] sc re rx md]; reflexivity.
Qed.
End PredictionInvariant.

(** C5 does not hold of the constructor: a probability of 2 and a
    log-probability of 1 are both accepted, though out of their ranges. *)
Lemma new_accepts_out_of_range :
  let big := Prediction.mk (Any := unit) "CCO" tt (Some 2%float) None
               None None None None in
  let pos := Prediction.mk (Any := unit) "CCO" tt None (Some 1%float)
               None None None None in
  Prediction.new big = Ok big /\ Prediction.in_field_ranges big = false
  /\ Prediction.new pos = Ok pos /\ Prediction.in_field_ranges pos = false.
Proof. vm_compute. repeat split. Qed.

(** ** Truncation of a [PredictionList] *)
Section Truncation.
Context {InputType OutputType Any : Type}.
Implicit Types (self : PredictionList.t InputType OutputType Any)
  (items : list (Prediction.t InputType OutputType Any))
  (h : gmap PredictionList.ref (PredictionList.t InputType OutputType Any)).

Lemma slice_to_nonneg {A} (lst : list A) n :
  0 <= n -> slice_to lst n = take (Z.to_nat (Z.min (Z.of_nat (length lst)) n)) lst.
Proof.
  intros Hn. unfold slice_to.
  destruct (Z.ltb_spec n 0); [lia |]. rewrite Z.min_comm. reflexivity.
Qed.

Lemma slice_to_neg {A} (lst : list A) n :
  n < 0 -> slice_to lst n = take (Z.to_nat (Z.max 0 (Z.of_nat (length lst) + n))) lst.
Proof.
  intros Hn. unfold slice_to.
  destruct (Z.ltb_spec n 0); [reflexivity | lia].
Qed.

(** Items that went through the constructor pass validation again. *)
Lemma validate_predictions_constructed items :
  Forall (fun p => Prediction.new p = Ok p) items ->
  PredictionList.validate_predictions items = (items, []).
Proof.
  induction 1 as [| p items Hp _ IH]; simpl; [reflexivity |].
  rewrite Hp, IH. reflexivity.
Qed.

(** What validation returns went through the constructor: so did every
    prediction of a list that its own constructor returned. *)
Lemma validate_predictions_valid items :
  Forall (fun p => Prediction.new p = Ok p)
    (PredictionList.validate_predictions items).1.
Proof.
  induction items as [| item items IH]; simpl; [constructor |].
  destruct (PredictionList.validate_predictions items) as [vs errors].
  destruct (Prediction.new item) as [v | e] eqn:Hnew; simpl in *; [| exact IH].
  constructor; [| exact IH].
  apply new_Ok_inv in Hnew as [-> Hone].
  apply new_Ok_intro. exact Hone.
Qed.

Lemma new_constructed (fields self : PredictionList.t InputType OutputType Any) :
  PredictionList.new fields = Ok self -> PredictionList.constructed self.
Proof.
  unfold PredictionList.new, PredictionList.constructed.
  pose proof (validate_predictions_valid (PredictionList.predictions fields)) as Hv.
  destruct (PredictionList.validate_predictions _) as [vs [| e errors]];
    [| discriminate].
  intros Heq. inversion Heq; subst. exact Hv.
Qed.

Lemma dict_predictions items : map Prediction.dict items = items.
Proof. unfold Prediction.dict. apply map_id. Qed.

Lemma truncated_constructed self n :
  PredictionList.constructed self ->
  PredictionList.truncated self n
  = Ok (PredictionList.mk (PredictionList.input self)
          (slice_to (PredictionList.predictions self) n)
          (PredictionList.metadata self)).
Proof.
  intros Hc. unfold PredictionList.truncated, PredictionList.new,
    PredictionList.dict. simpl.
  rewrite dict_predictions, validate_predictions_constructed; [reflexivity |].
  unfold slice_to. apply Forall_take. exact Hc.
Qed.

(** C2: for [n >= 0], [truncated(n)] on a list of [k] predictions returns
    a new object, whose [predictions] are the first [min(k, n)] of the
    original ones in their order, and whose [input] and [metadata] are
    those of the original; the original object, as every other object
    alive, is left as it was. *)
Theorem truncated_first_n h r self n :
  h !! r = Some self ->
  PredictionList.constructed self ->
  0 <= n ->
  let k := length (PredictionList.predictions self) in
  exists r' self',
    PredictionList.call_truncated r n h = Ok (r', <[r' := self']> h)
    /\ h !! r' = None
    /\ (forall q, q ≠ r' -> (<[r' := self']> h) !! q = h !! q)
    /\ (<[r' := self']> h) !! r = Some self
    /\ (<[r' := self']> h) !! r' = Some self'
    /\ PredictionList.predictions self'
       = take (Nat.min k (Z.to_nat n)) (PredictionList.predictions self)
    /\ length (PredictionList.predictions self') = Nat.min k (Z.to_nat n)
    /\ PredictionList.input self' = PredictionList.input self
    /\ PredictionList.metadata self' = PredictionList.metadata self.
Proof.
  intros Hr Hc Hn k.
  set (self' := PredictionList.mk (PredictionList.input self)
                  (slice_to (PredictionList.predictions self) n)
                  (PredictionList.metadata self)).
  set (r' := fresh (dom h)).
  assert (Hfresh : h !! r' = None).
  { apply not_elem_of_dom. apply is_fresh. }
  assert (Hslice : slice_to (PredictionList.predictions self) n
                   = take (Nat.min k (Z.to_nat n)) (PredictionList.predictions self)).
  { rewrite slice_to_nonneg by exact Hn. f_equal. subst k. lia. }
  exists r', self'. repeat split.
  - unfold PredictionList.call_truncated. rewrite Hr.
    rewrite truncated_constructed by exact Hc. reflexivity.
  - exact Hfresh.
  - intros q Hq. rewrite lookup_insert_ne by congruence. reflexivity.
  - rewrite lookup_insert_ne; [exact Hr |]. intros ->. congruence.
  - apply lookup_insert_eq.
  - exact Hslice.
  - simpl. rewrite Hslice, length_take. subst k. lia.
Qed.

(** C10: for a negative [n], [truncated(n)] succeeds and keeps the first
    [max(0, k + n)] predictions: the last [|n|] ones are dropped, all of
    them when [|n|] exceeds [k]. *)
Theorem truncated_negative self n :
  PredictionList.constructed self ->
  n < 0 ->
  let k := Z.of_nat (length (PredictionList.predictions self)) in
  exists self' dropped,
    PredictionList.truncated self n = Ok self'
    /\ PredictionList.predictions self'
       = take (Z.to_nat (Z.max 0 (k + n))) (PredictionList.predictions self)
    /\ Z.of_nat (length (PredictionList.predictions self')) = Z.max 0 (k + n)
    /\ PredictionList.predictions self
       = PredictionList.predictions self' ++ dropped
    /\ Z.of_nat (length dropped) = Z.min k (- n)
    /\ PredictionList.input self' = PredictionList.input self
    /\ PredictionList.metadata self' = PredictionList.metadata self.
Proof.
  intros Hc Hn k.
  set (m := Z.to_nat (Z.max 0 (k + n))).
  exists (PredictionList.mk (PredictionList.input self)
            (take m (PredictionList.predictions self))
            (PredictionList.metadata self)),
         (drop m (PredictionList.predictions self)).
  repeat split; simpl.
  - rewrite truncated_constructed by exact Hc.
    rewrite slice_to_neg by exact Hn. reflexivity.
  - rewrite length_take. subst m k. lia.
  - symmetry. apply take_drop.
  - rewrite length_drop. subst m k. lia.
Qed.
End Truncation.

(** ** Direction and parameters of a reaction model *)
Section ReactionModelMethods.
Context {Self Params : Type}.
Implicit Types (cls derived : ReactionModel.pyclass Self Params) (self : Self).

Lemma resolve_app {M} (slot : ReactionModel.methods Self Params -> option M)
  derived cls :
  ReactionModel.resolve slot derived = None ->
  ReactionModel.resolve slot (derived ++ cls) = ReactionModel.resolve slot cls.
Proof.
  induction derived as [| c derived IH]; simpl; [reflexivity |].
  destruct (slot c); [discriminate | exact IH].
Qed.

Lemma keeps_direction_resolve derived :
  forallb ReactionModel.keeps_direction derived = true ->
  ReactionModel.resolve ReactionModel.def_is_forward derived = None
  /\ ReactionModel.resolve ReactionModel.def_is_backward derived = None.
Proof.
  induction derived as [| c derived IH]; simpl; [auto |].
  intros Hk. apply andb_true_iff in Hk as [Hc Hd].
  unfold ReactionModel.keeps_direction in Hc.
  destruct (ReactionModel.def_is_forward c); [discriminate |].
  destruct (ReactionModel.def_is_backward c); [discriminate |].
  apply IH, Hd.
Qed.

(** C6: in a class that inherits [is_backward] from [ReactionModel],
    [is_backward()] is the negation of what [is_forward()] returns; and
    in [ForwardReactionModel], as in the classes derived from it that
    define neither method, [is_forward()] is true and [is_backward()] is
    false, the reverse holding for [BackwardReactionModel]. *)
Theorem is_backward_negates_is_forward cls derived self :
  ReactionModel.resolve ReactionModel.def_is_backward cls = None ->
  forallb ReactionModel.keeps_direction derived = true ->
  ReactionModel.is_backward cls self
    = (v ← ReactionModel.is_forward cls self; Ok (ReactionModel.py_not v))
  /\ (forall b, ReactionModel.is_forward cls self = Ok (ReactionModel.PyBool b) ->
        ReactionModel.is_backward cls self = Ok (ReactionModel.PyBool (negb b)))
  /\ ReactionModel.is_forward
       (derived ++ [ReactionModel.ForwardReactionModel]) self
     = Ok (ReactionModel.PyBool true)
  /\ ReactionModel.is_backward
       (derived ++ [ReactionModel.ForwardReactionModel]) self
     = Ok (ReactionModel.PyBool false)
  /\ ReactionModel.is_forward
       (derived ++ [ReactionModel.BackwardReactionModel]) self
     = Ok (ReactionModel.PyBool false)
  /\ ReactionModel.is_backward
       (derived ++ [ReactionModel.BackwardReactionModel]) self
     = Ok (ReactionModel.PyBool true).
Proof.
  intros Hcls Hder.
  destruct (keeps_direction_resolve derived Hder) as [Hf Hb].
  assert (Hneg : ReactionModel.is_backward cls self
            = (v ← ReactionModel.is_forward cls self;
               Ok (ReactionModel.py_not v))).
  { unfold ReactionModel.is_backward. rewrite Hcls. reflexivity. }
  split; [exact Hneg |].
  split; [intros b Hfw; rewrite Hneg, Hfw; reflexivity |].
  unfold ReactionModel.is_backward, ReactionModel.is_forward.
  rewrite !resolve_app by assumption.
  repeat split.
Qed.
End ReactionModelMethods.

Lemma is_backward_negates_is_forward_witness :
  ReactionModel.is_backward (Self := unit) (Params := unit)
    [@ReactionModel.Build_methods unit unit None None None;
     ReactionModel.ForwardReactionModel] tt
  = Ok (ReactionModel.PyBool false).
Proof.
  pose proof (is_backward_negates_is_forward (Self := unit) (Params := unit)
    [ReactionModel.ForwardReactionModel]
    [@ReactionModel.Build_methods unit unit None None None] tt
    eq_refl eq_refl) as (_ & _ & _ & Hb & _).
  exact Hb.
Defined.

(** ** The LocalRetro adapter *)
Section LocalRetroProperties.
Context `{LocalRetroModel.External}.
Import LocalRetroModel.
Implicit Types (self : LocalRetroModel.t) (inputs : list Molecule)
  (candidates : list (string * float)).


Lemma process_raw_smiles_outputs_probabilities input candidates :
  process_raw_smiles_outputs input (map fst candidates)
    (map (fun probability => {[ "probability" := probability ]})
       (map snd candidates))
  = Ok (list_of input candidates).
Proof.
  unfold process_raw_smiles_outputs.
  assert (Hpack : traverse
    (fun '(raw_output, kwargs) =>
       Prediction.new {|
         Prediction.input := input;
         Prediction.output := bag_from_smiles raw_output;
         Prediction.probability := (kwargs : gmap string float) !! "probability";
         Prediction.log_prob := kwargs !! "log_prob";
         Prediction.score := kwargs !! "score";
         Prediction.reaction := None;
         Prediction.rxnid := None;
         Prediction.metadata := Some ∅
       |})
    (zip (map fst candidates)
       (map (fun probability => {[ "probability" := probability ]})
          (map snd candidates)))
    = Ok (map (prediction_of input) candidates)).
  { induction candidates as [| [smi p] candidates IH]; simpl; [reflexivity |].
    rewrite IH. rewrite lookup_singleton_eq.
    rewrite !lookup_singleton_ne by discriminate. reflexivity. }
  rewrite Hpack. simpl.
  unfold PredictionList.new. simpl.
  rewrite validate_predictions_constructed; [reflexivity |].
  apply Forall_map, Forall_forall. intros c _. reflexivity.
Qed.


Lemma traverse_Ok_iff {A B} (f : A -> result B) (l : list A) (bs : list B) :
  traverse f l = Ok bs <-> Forall2 (fun a b => f a = Ok b) l bs.
Proof.
  revert bs. induction l as [| a l IH]; intros bs; simpl.
  - split; [intros Heq; inversion Heq; constructor |].
    intros Hall. inversion Hall. reflexivity.
  - destruct (f a) as [b | e] eqn:Hfa; simpl.
    + destruct (traverse f l) as [bs' | e] eqn:Hl; simpl.
      * split.
        -- intros Heq. inversion Heq; subst.
           constructor; [exact Hfa | apply IH; reflexivity].
        -- intros Hall. inversion Hall as [| ? b' ? bs'' Hb Hrest]; subst.
           apply IH in Hrest. congruence.
      * split; [discriminate |].
        intros Hall. inversion Hall as [| ? b' ? bs'' Hb Hrest]; subst.
        apply IH in Hrest. discriminate.
    + split; [discriminate |].
      intros Hall. inversion Hall; subst. congruence.
Qed.





(** C8, as the code has it: a model directory without exactly one
    [*.pth] file, or without exactly one [*.json] file, makes [__init__]
    fail with a configuration error, before anything is loaded.  The
    data files are not looked for: once the two files are located, the
    [data] directory below the model directory is handed over as it is,
    and [__init__] fails exactly when one of the external loaders does,
    with the error of that loader; when they succeed, so does it. *)
Theorem init_fails_fast fs model_dir device :
  (length (glob fs model_dir "*.pth") ≠ 1%nat
   \/ length (glob fs model_dir "*.json") ≠ 1%nat ->
   exists msg,
     __init__ fs model_dir device = Raise (ConfigurationError msg))
  /\ (forall model_path config_path,
        get_unique_file_in_dir fs model_dir "*.pth" = Ok model_path ->
        get_unique_file_in_dir fs model_dir "*.json" = Ok config_path ->
        let init0 := {|
          mode := "test";
          LocalRetroModel.device := device;
          LocalRetroModel.model_path := model_path;
          LocalRetroModel.config_path := config_path;
          data_dir := Path.truediv (Path.Path model_dir) "data";
          rxn_class_given := false
        |} in
        let args0 featurizers := {|
          init := init0;
          featurizers := featurizers;
          atom_templates := None;
          bond_templates := None;
          template_infos := None;
          top_k := None;
          raw_predictions := None
        |} in
        (forall e, init_featurizer init0 = Raise e ->
           __init__ fs model_dir device = Raise e)
        /\ (forall featurizers e,
              init_featurizer init0 = Ok featurizers ->
              load_model fs (args0 featurizers) = Raise e ->
              __init__ fs model_dir device = Raise e)
        /\ (forall featurizers model e,
              init_featurizer init0 = Ok featurizers ->
              load_model fs (args0 featurizers) = Ok model ->
              load_templates fs (args0 featurizers) = Raise e ->
              __init__ fs model_dir device = Raise e)
        /\ (forall featurizers model atoms bonds infos,
              init_featurizer init0 = Ok featurizers ->
              load_model fs (args0 featurizers) = Ok model ->
              load_templates fs (args0 featurizers)
              = Ok (atoms, bonds, infos) ->
              __init__ fs model_dir device
              = Ok {|
                  args := {|
                    init := init0;
                    featurizers := featurizers;
                    atom_templates := Some atoms;
                    bond_templates := Some bonds;
                    template_infos := Some infos;
                    top_k := None;
                    raw_predictions := None
                  |};
                  model := model
                |})).
Proof.
  split.
  - intros Hmissing. unfold __init__, get_unique_file_in_dir.
    destruct (glob fs model_dir "*.pth") as [| pth [| ? ?]];
      simpl; eauto.
    destruct (glob fs model_dir "*.json") as [| json [| ? ?]];
      simpl; eauto.
    destruct Hmissing as [Hp | Hj]; simpl in *; congruence.
  - intros model_path config_path Hpth Hjson init0 args0.
    unfold __init__. rewrite Hpth, Hjson. simpl. fold init0.
    repeat split.
    + intros e ->. reflexivity.
    + intros featurizers e -> Hm. simpl.
      unfold args0 in Hm. rewrite Hm. reflexivity.
    + intros featurizers model e -> Hm Ht. simpl.
      unfold args0 in Hm, Ht. rewrite Hm. simpl. rewrite Ht. reflexivity.
    + intros featurizers model atoms bonds infos -> Hm Ht. simpl.
      unfold args0 in Hm, Ht. rewrite Hm. simpl. rewrite Ht. reflexivity.
Qed.

(** C9: a reaction model whose class does not define [get_parameters]
    gets the default of [ReactionModel], which raises
    [NotImplementedError]: so do the two variants of the interface;
    [LocalRetroModel] defines the method and returns the parameters of
    the model it wraps. *)
Theorem get_parameters_default {Self Params' : Type}
  (cls : ReactionModel.pyclass Self Params') (s : Self) self :
  ReactionModel.resolve ReactionModel.def_get_parameters cls = None ->
  ReactionModel.get_parameters cls s = Raise NotImplementedError
  /\ ReactionModel.get_parameters
       (Params := Params') [ReactionModel.BackwardReactionModel] s
     = Raise NotImplementedError
  /\ ReactionModel.get_parameters
       (Params := Params') [ReactionModel.ForwardReactionModel] s
     = Raise NotImplementedError
  /\ ReactionModel.get_parameters LocalRetroModel.class self
     = Ok (parameters (model self)).
Proof.
  intros Hcls. unfold ReactionModel.get_parameters.
  rewrite Hcls. repeat split.
Qed.
End LocalRetroProperties.

(** ** The properties on the small instance *)

#[local] Existing Instance Example.external.

Example slice_to_examples :
  slice_to [1; 2; 3] 2 = [1; 2] /\ slice_to [1; 2; 3] 5 = [1; 2; 3]
  /\ slice_to [1; 2; 3] 0 = [] /\ slice_to [1; 2; 3] (-1) = [1; 2]
  /\ slice_to [1; 2; 3] (-7) = [].
Proof. repeat split. Qed.

Example fnmatch_examples :
  fnmatch "*.pth" "model.pth" = true /\ fnmatch "*.pth" "model.pth.bak" = false
  /\ fnmatch "*.json" "config.json" = true /\ fnmatch "*.pth" ".pth" = true.
Proof. repeat split. Qed.

(** A probability of zero is stored and read back; its logarithm is
    refused by [math.log], with an error of its own. *)
Example get_log_prob_zero :
  Prediction.get_prob series_exp (Example.prediction 0) = Ok 0%float
  /\ Prediction.get_log_prob series_log (Example.prediction 0)
     = Raise (ValueError "math domain error").
Proof. vm_compute. split; reflexivity. Qed.

Example init_complete :
  LocalRetroModel.__init__ Example.complete "m" "cpu" = Ok Example.adapter.
Proof. vm_compute. reflexivity. Qed.

Lemma truncated_first_n_witness :
  exists r' self',
    PredictionList.call_truncated 1%positive 2 Example.store
    = Ok (r', <[r' := self']> Example.store)
    /\ PredictionList.predictions self'
       = [Example.prediction 0.5; Example.prediction 0.25]%float.
Proof.
  destruct (truncated_first_n Example.store 1%positive Example.three 2)
    as (r' & self' & Hcall & _ & _ & _ & _ & Hpred & _).
  - reflexivity.
  - repeat constructor.
  - lia.
  - exists r', self'. split; [exact Hcall | exact Hpred].
Defined.

Lemma truncated_negative_witness :
  exists self',
    PredictionList.truncated Example.three (-1) = Ok self'
    /\ PredictionList.predictions self'
       = [Example.prediction 0.5; Example.prediction 0.25]%float.
Proof.
  destruct (truncated_negative Example.three (-1))
    as (self' & dropped & Hcall & Hpred & _).
  - repeat constructor.
  - lia.
  - exists self'. split; [exact Hcall | exact Hpred].
Defined.



Lemma init_fails_fast_witness :
  exists msg,
    LocalRetroModel.__init__ Example.no_checkpoint "m" "cpu"
    = Raise (ConfigurationError msg).
Proof.
  apply (proj1 (init_fails_fast Example.no_checkpoint "m" "cpu")).
  left. vm_compute. discriminate.
Defined.

(** C8 does not hold of the data files: with the checkpoint and the
    configuration in place and no data, [__init__] fails with the error
    of the loader of the templates, which is no configuration error. *)
Lemma init_no_data_not_configuration_error :
  glob Example.no_data "m" "*.pth" = ["model.pth"]
  /\ glob Example.no_data "m" "*.json" = ["config.json"]
  /\ glob Example.no_data "m/data" "*.csv" = []
  /\ LocalRetroModel.__init__ Example.no_data "m" "cpu"
     = Raise (ExternalError "FileNotFoundError")
  /\ is_configuration_error (ExternalError "FileNotFoundError") = false.
Proof. vm_compute. repeat split. Qed.

Lemma get_parameters_default_witness :
  ReactionModel.get_parameters (Self := unit) (Params := unit)
    [ReactionModel.ForwardReactionModel] tt = Raise NotImplementedError
  /\ ReactionModel.get_parameters LocalRetroModel.class Example.adapter
     = Ok [0.5; 0.25]%float.
Proof.
  destruct (get_parameters_default (Self := unit) (Params' := unit)
              [ReactionModel.ForwardReactionModel] tt Example.adapter eq_refl)
    as (Hdefault & _ & _ & Hlocal).
  split; [exact Hdefault | exact Hlocal].
Defined.

(** * Further properties *)

(** ** Truncations compose *)
Section TruncationMore.
Context {InputType OutputType Any : Type}.
Implicit Types (self : PredictionList.t InputType OutputType Any)
  (items : list (Prediction.t InputType OutputType Any)).

Lemma slice_to_take {A} (lst : list A) n :
  0 <= n -> slice_to lst n = take (Z.to_nat n) lst.
Proof.
  intros Hn. rewrite slice_to_nonneg by exact Hn.
  destruct (Z.le_gt_cases n (Z.of_nat (length lst))).
  - rewrite Z.min_r by lia. reflexivity.
  - rewrite Z.min_l by lia. rewrite Nat2Z.id.
    rewrite !take_ge by lia. reflexivity.
Qed.

Lemma slice_to_slice_to_nonneg {A} (lst : list A) n m :
  0 <= n -> 0 <= m -> slice_to (slice_to lst n) m = slice_to lst (Z.min n m).
Proof.
  intros Hn Hm. rewrite !slice_to_take by lia.
  rewrite take_take. f_equal. lia.
Qed.

Lemma slice_to_slice_to_neg {A} (lst : list A) n m :
  n < 0 -> m < 0 -> slice_to (slice_to lst n) m = slice_to lst (n + m).
Proof.
  intros Hn Hm. rewrite !slice_to_neg by lia.
  rewrite take_take, length_take. f_equal. lia.
Qed.

Lemma slice_to_constructed items n :
  Forall (fun p => Prediction.new p = Ok p) items ->
  Forall (fun p => Prediction.new p = Ok p) (slice_to items n).
Proof. intros Hc. unfold slice_to. apply Forall_take. exact Hc. Qed.

(** X1: truncating to [n] and then to [m] is truncating to the smaller of
    the two. *)
Theorem truncated_truncated self n m :
  PredictionList.constructed self ->
  0 <= n -> 0 <= m ->
  (self' ← PredictionList.truncated self n; PredictionList.truncated self' m)
  = PredictionList.truncated self (Z.min n m).
Proof.
  intros Hc Hn Hm.
  rewrite !truncated_constructed by exact Hc. simpl.
  rewrite truncated_constructed
    by (apply slice_to_constructed; exact Hc).
  simpl. rewrite slice_to_slice_to_nonneg by assumption. reflexivity.
Qed.

(** X2: with negative arguments the numbers of dropped predictions add up. *)
Theorem truncated_truncated_negative self n m :
  PredictionList.constructed self ->
  n < 0 -> m < 0 ->
  (self' ← PredictionList.truncated self n; PredictionList.truncated self' m)
  = PredictionList.truncated self (n + m).
Proof.
  intros Hc Hn Hm.
  rewrite !truncated_constructed by exact Hc. simpl.
  rewrite truncated_constructed
    by (apply slice_to_constructed; exact Hc).
  simpl. rewrite slice_to_slice_to_neg by assumption. reflexivity.
Qed.

(** X3: asking for at least as many predictions as the list holds returns a
    list equal to the original. *)
Theorem truncated_all self n :
  PredictionList.constructed self ->
  Z.of_nat (length (PredictionList.predictions self)) <= n ->
  PredictionList.truncated self n = Ok self.
Proof.
  intros Hc Hn. rewrite truncated_constructed by exact Hc.
  rewrite slice_to_take by lia. rewrite take_ge by lia.
  destruct self; reflexivity.
Qed.

Lemma at_most_one_source_prob_new (p : Prediction.t InputType OutputType Any) :
  Prediction.at_most_one_source_prob p = true -> Prediction.new p = Ok p.
Proof.
  intros Hp. apply new_Ok_intro. unfold Prediction.at_most_one_source_prob in Hp.
  destruct (Prediction.probability p), (Prediction.log_prob p);
    auto; discriminate.
Qed.

Lemma validate_predictions_forallb items :
  forallb Prediction.at_most_one_source_prob items = true ->
  PredictionList.validate_predictions items = (items, []).
Proof.
  intros Hall. apply validate_predictions_constructed.
  apply Forall_forall. intros p Hp.
  rewrite forallb_forall in Hall.
  apply at_most_one_source_prob_new, Hall, list_elem_of_In, Hp.
Qed.

Lemma validate_predictions_errors items :
  forallb Prediction.at_most_one_source_prob items = false ->
  exists e errors, (PredictionList.validate_predictions items).2 = e :: errors.
Proof.
  induction items as [| item items IH]; simpl; [discriminate |].
  intros Hall.
  destruct (PredictionList.validate_predictions items) as [vs errors] eqn:Hv.
  destruct (Prediction.at_most_one_source_prob item) eqn:Hitem; simpl in Hall.
  - rewrite (at_most_one_source_prob_new item Hitem). simpl.
    apply IH, Hall.
  - unfold Prediction.new, Prediction.check_at_most_one_source_prob.
    unfold Prediction.at_most_one_source_prob in Hitem.
    destruct (Prediction.probability item), (Prediction.log_prob item);
      try discriminate.
    simpl. eauto.
Qed.

(** X4: truncation validates again the predictions that it keeps, and only
    those: it succeeds when none of them stores both a probability and a
    log-probability, whatever lies beyond the cut, and fails with a
    validation error otherwise. *)
Theorem truncated_validates_kept self n :
  let kept := slice_to (PredictionList.predictions self) n in
  if forallb Prediction.at_most_one_source_prob kept then
    PredictionList.truncated self n
    = Ok (PredictionList.mk (PredictionList.input self) kept
            (PredictionList.metadata self))
  else
    exists errors,
      PredictionList.truncated self n
      = Raise (ValidationError "PredictionList" errors).
Proof.
  intros kept.
  unfold PredictionList.truncated, PredictionList.new, PredictionList.dict.
  simpl. rewrite dict_predictions. fold kept.
  destruct (forallb Prediction.at_most_one_source_prob kept) eqn:Hall.
  - rewrite validate_predictions_forallb by exact Hall. reflexivity.
  - destruct (validate_predictions_errors kept Hall) as (e & errors & He).
    destruct (PredictionList.validate_predictions kept) as [vs errs].
    simpl in He. subst errs. eauto.
Qed.

(** X5: whatever the list and the number asked for, a truncation that
    returns gives a list of predictions that all pass their
    constructor, a prefix of the original ones: nothing is reordered,
    replaced or added, and [input] and [metadata] are kept. *)
Theorem truncated_Ok_prefix self n self' :
  PredictionList.truncated self n = Ok self' ->
  PredictionList.constructed self'
  /\ (exists dropped,
        PredictionList.predictions self
        = PredictionList.predictions self' ++ dropped)
  /\ PredictionList.input self' = PredictionList.input self
  /\ PredictionList.metadata self' = PredictionList.metadata self.
Proof.
  intros Htr. split; [eapply new_constructed; exact Htr |].
  revert Htr.
  unfold PredictionList.truncated, PredictionList.new, PredictionList.dict.
  simpl. rewrite dict_predictions.
  set (kept := slice_to (PredictionList.predictions self) n).
  destruct (forallb Prediction.at_most_one_source_prob kept) eqn:Hall.
  - rewrite validate_predictions_forallb by exact Hall.
    intros Heq. inversion Heq; subst; clear Heq. simpl.
    repeat split.
    subst kept. unfold slice_to.
    match goal with
    | |- context [take ?k _] =>
      exists (drop k (PredictionList.predictions self))
    end.
    symmetry. apply take_drop.
  - destruct (validate_predictions_errors kept Hall) as (e & errors & He).
    destruct (PredictionList.validate_predictions kept) as [vs errs].
    simpl in He. subst errs. discriminate.
Qed.
End TruncationMore.

(** ** Errors of the confidence accessors *)

Lemma SFeqb_refl_finite s m e :
  SpecFloat.SFeqb (SpecFloat.S754_finite s m e) (SpecFloat.S754_finite s m e)
  = true.
Proof.
  unfold SpecFloat.SFeqb. simpl.
  rewrite Z.compare_refl, Pos.compare_cont_refl. destruct s; reflexivity.
Qed.

Lemma is_nan_Prim2SF x :
  is_nan x = match Prim2SF x with SpecFloat.S754_nan => true | _ => false end.
Proof.
  unfold is_nan. rewrite FloatAxioms.eqb_spec.
  destruct (Prim2SF x) as [s | s | | s m e]; try (destruct s; reflexivity).
  - reflexivity.
  - rewrite SFeqb_refl_finite. reflexivity.
Qed.

Lemma is_infinity_Prim2SF x :
  is_infinity x
  = match Prim2SF x with SpecFloat.S754_infinity _ => true | _ => false end.
Proof.
  unfold is_infinity. rewrite FloatAxioms.eqb_spec, abs_spec.
  change (Prim2SF infinity) with (SpecFloat.S754_infinity false).
  destruct (Prim2SF x) as [s | s | | s m e]; reflexivity.
Qed.

Section AccessorErrors.
Context {InputType OutputType Any : Type}.
Variables libm_exp libm_log : float -> float.
Implicit Types (self : Prediction.t InputType OutputType Any).

(** The logarithm of a float that is not positive is a domain error,
    whatever the C library returns. *)
Lemma math_log_nonpositive p :
  (p <=? 0)%float = true ->
  math.log libm_log p = Raise (ValueError "math domain error").
Proof.
  intros Hle. rewrite leb_spec in Hle.
  change (Prim2SF 0) with (SpecFloat.S754_zero false) in Hle.
  unfold math.log, math.math_1, math.m_log, is_finite.
  rewrite (is_nan_Prim2SF p), (is_infinity_Prim2SF p).
  rewrite ltb_spec, FloatAxioms.eqb_spec.
  change (Prim2SF 0) with (SpecFloat.S754_zero false).
  destruct (Prim2SF p) as [s | s | | s m e]; try discriminate.
  - reflexivity.
  - destruct s; [reflexivity | discriminate].
  - destruct s; [reflexivity | discriminate].
Qed.

(** X6: A stored probability that is zero or negative, which construction
    accepts, makes [get_log_prob] raise a domain error. *)
Theorem get_log_prob_nonpositive_probability i o sc re rx
  (md : option (gmap string Any)) p :
  (p <=? 0)%float = true ->
  let self : Prediction.t InputType OutputType Any :=
    Prediction.mk i o (Some p) None sc re rx md in
  Prediction.new self = Ok self
  /\ Prediction.get_prob libm_exp self = Ok p
  /\ Prediction.get_log_prob libm_log self
     = Raise (ValueError "math domain error").
Proof.
  intros Hle self. repeat split.
  apply math_log_nonpositive, Hle.
Qed.

Lemma math_1_raises func can_overflow x :
  match math.math_1 func can_overflow x with
  | Ok r => r = func x
  | Raise (ValueError _) => True
  | Raise (OverflowError _) =>
    can_overflow = true /\ is_infinity (func x) = true /\ is_finite x = true
  | Raise _ => False
  end.
Proof.
  unfold math.math_1.
  destruct (is_nan (func x) && negb (is_nan x)); [exact I |].
  destruct (is_infinity (func x) && is_finite x) eqn:Hinf; [| reflexivity].
  apply andb_true_iff in Hinf.
  destruct can_overflow; [tauto | exact I].
Qed.

(** X7: the accessors raise nothing but [ValueError], except that [get_prob]
    raises [OverflowError] when the exponential of a finite stored
    log-probability overflows; and whatever they return without raising
    is the stored field or the result of the C function on the other. *)
Theorem accessors_raise_only self :
  match Prediction.get_log_prob libm_log self with
  | Ok l =>
    Prediction.log_prob self = Some l
    \/ (Prediction.log_prob self = None
        /\ exists p, Prediction.probability self = Some p
                     /\ l = math.m_log libm_log p)
  | Raise (ValueError _) => True
  | Raise _ => False
  end
  /\ match Prediction.get_prob libm_exp self with
     | Ok p =>
       Prediction.probability self = Some p
       \/ (Prediction.probability self = None
           /\ exists l, Prediction.log_prob self = Some l /\ p = libm_exp l)
     | Raise (ValueError _) => True
     | Raise (OverflowError _) =>
       Prediction.probability self = None
       /\ exists l, Prediction.log_prob self = Some l
                    /\ is_finite l = true
                    /\ is_infinity (libm_exp l) = true
     | Raise _ => False
     end.
Proof.
  unfold Prediction.get_log_prob, Prediction.get_prob, math.log, math.exp.
  destruct self as [i o [p |] [l |] sc re rx md]; simpl.
  - split; auto.
  - split; [| auto].
    pose proof (math_1_raises (math.m_log libm_log) false p) as Hm.
    destruct (math.math_1 (math.m_log libm_log) false p) as [r | []];
      try exact Hm; [right; eauto |].
    destruct Hm as (Hfalse & _). discriminate.
  - split; [auto |].
    pose proof (math_1_raises libm_exp true l) as Hm.
    destruct (math.math_1 libm_exp true l) as [r | []];
      try exact Hm; [right; eauto |].
    destruct Hm as (_ & Hinf & Hfin). eauto.
  - split; exact I.
Qed.
End AccessorErrors.

(** ** Direction of a model whose class leaves it open *)
Section DirectionMore.
Context {Self Params : Type}.
Implicit Types (cls derived : ReactionModel.pyclass Self Params) (self : Self).

(** X8: [is_forward] is not enforced to be defined: in [ReactionModel]
    itself, as in every class that defines neither method, it returns
    [None], and [is_backward] then answers true. *)
Theorem direction_left_open derived self :
  forallb ReactionModel.keeps_direction derived = true ->
  ReactionModel.is_forward derived self = Ok ReactionModel.PyNone
  /\ ReactionModel.is_backward derived self = Ok (ReactionModel.PyBool true).
Proof.
  intros Hder. destruct (keeps_direction_resolve derived Hder) as [Hf Hb].
  unfold ReactionModel.is_backward, ReactionModel.is_forward.
  rewrite Hb, Hf. split; reflexivity.
Qed.

(** X9: the inherited [is_backward] goes through the [is_forward] of the
    most derived class that defines one: it negates what that method
    returns, also below [ForwardReactionModel] or
    [BackwardReactionModel], and raises what that method raises. *)
Theorem is_backward_follows_override (c : ReactionModel.methods Self Params)
  cls self f :
  ReactionModel.def_is_forward c = Some f ->
  ReactionModel.def_is_backward c = None ->
  ReactionModel.resolve ReactionModel.def_is_backward cls = None ->
  ReactionModel.is_forward (c :: cls) self = f self
  /\ (forall b, f self = Ok (ReactionModel.PyBool b) ->
        ReactionModel.is_backward (c :: cls) self
        = Ok (ReactionModel.PyBool (negb b)))
  /\ (forall e, f self = Raise e ->
        ReactionModel.is_backward (c :: cls) self = Raise e).
Proof.
  intros Hf Hb Hcls.
  unfold ReactionModel.is_backward, ReactionModel.is_forward. simpl.
  rewrite Hf, Hb, Hcls. repeat split.
  - intros b ->. reflexivity.
  - intros e ->. reflexivity.
Qed.
End DirectionMore.

Section AdapterMore.
Context `{LocalRetroModel.External}.
Import LocalRetroModel.
Implicit Types (self : LocalRetroModel.t) (inputs : list Molecule).

(** X10: the adapter is a backward model: its class resolves [is_forward] in
    [BackwardReactionModel] and [is_backward] in [ReactionModel]. *)
Theorem adapter_is_backward self :
  ReactionModel.is_forward LocalRetroModel.class self
    = Ok (ReactionModel.PyBool false)
  /\ ReactionModel.is_backward LocalRetroModel.class self
     = Ok (ReactionModel.PyBool true).
Proof. split; reflexivity. Qed.

(** *** Construction *)

(** X11: an adapter that [__init__] returned was built from the one
    checkpoint and the one configuration file of its directory, in test
    mode, on the device asked for and with the [data] directory of the
    model directory, that is, the path of the model directory with the
    component [data] added; its three tables of templates are loaded and
    no result is pending. *)
Theorem init_Ok_inv fs model_dir device self :
  __init__ fs model_dir device = Ok self ->
  let args0 := {|
    init := init (args self);
    featurizers := featurizers (args self);
    atom_templates := None;
    bond_templates := None;
    template_infos := None;
    top_k := None;
    raw_predictions := None
  |} in
  get_unique_file_in_dir fs model_dir "*.pth"
    = Ok (model_path (init (args self)))
  /\ get_unique_file_in_dir fs model_dir "*.json"
     = Ok (config_path (init (args self)))
  /\ mode (init (args self)) = "test"
  /\ LocalRetroModel.device (init (args self)) = device
  /\ data_dir (init (args self)) = Path.truediv (Path.Path model_dir) "data"
  /\ Path.root (data_dir (init (args self))) = Path.root (Path.Path model_dir)
  /\ Path.parts (data_dir (init (args self)))
     = Path.parts (Path.Path model_dir) ++ ["data"]
  /\ rxn_class_given (init (args self)) = false
  /\ init_featurizer (init (args self)) = Ok (featurizers (args self))
  /\ load_model fs args0 = Ok (model self)
  /\ (exists atoms bonds infos,
        load_templates fs args0 = Ok (atoms, bonds, infos)
        /\ atom_templates (args self) = Some atoms
        /\ bond_templates (args self) = Some bonds
        /\ template_infos (args self) = Some infos)
  /\ top_k (args self) = None
  /\ raw_predictions (args self) = None.
Proof.
  unfold __init__. intros Hinit.
  destruct (get_unique_file_in_dir fs model_dir "*.pth") as [pth | e];
    [| discriminate]. simpl in Hinit.
  destruct (get_unique_file_in_dir fs model_dir "*.json") as [json | e];
    [| discriminate]. simpl in Hinit.
  destruct (init_featurizer _) as [feat | e] eqn:Hfeat; [| discriminate].
  simpl in Hinit.
  destruct (load_model _ _) as [m | e] eqn:Hmodel; [| discriminate].
  simpl in Hinit.
  destruct (load_templates _ _) as [[[atoms bonds] infos] | e] eqn:Htpl;
    [| discriminate].
  simpl in Hinit. inversion Hinit; subst; clear Hinit. simpl.
  repeat split; try assumption. eauto 10.
Qed.
End AdapterMore.

(** *** Inference *)
Section InferenceMore.
Context `{LocalRetroModel.External}.
Import LocalRetroModel.
Implicit Types (self : LocalRetroModel.t) (inputs : list Molecule).

(** The first element that raises decides what a traversal raises. *)
Lemma traverse_Raise {A B} (f : A -> result B) (before : list A) a after bs e :
  Forall2 (fun a b => f a = Ok b) before bs ->
  f a = Raise e ->
  traverse f (before ++ a :: after) = Raise e.
Proof.
  intros Hbefore Ha. induction Hbefore as [| x b before bs Hx _ IH]; simpl.
  - rewrite Ha. reflexivity.
  - rewrite Hx. simpl. rewrite IH. reflexivity.
Qed.

(** X12: [_mols_to_batch] returns a batch exactly when every molecule of the
    batch has a graph and the graphs, one per molecule and in the order
    of the molecules, can be collated. *)
Theorem mols_to_batch_Ok_iff self inputs batch :
  _mols_to_batch self inputs = Ok batch
  <-> exists graphs,
        Forall2 (fun mol graph =>
                   smiles_to_bigraph (smiles mol) (featurizers (args self))
                   = Ok graph) inputs graphs
        /\ collate_molgraphs_test graphs = Ok batch.
Proof.
  unfold _mols_to_batch. split.
  - destruct (traverse _ inputs) as [graphs | e] eqn:Hg; [| discriminate].
    simpl. intros Hc. exists graphs. split; [| exact Hc].
    apply traverse_Ok_iff in Hg. exact Hg.
  - intros (graphs & Hg & Hc).
    apply (traverse_Ok_iff
             (fun mol => smiles_to_bigraph (smiles mol)
                           (featurizers (args self)))) in Hg.
    rewrite Hg. exact Hc.
Qed.

(** X13: A molecule without a graph makes [_mols_to_batch] raise what the
    conversion of the first such molecule raises; nothing is collated. *)
Theorem mols_to_batch_first_failure self before mol after graphs e num_results :
  Forall2 (fun m graph =>
             smiles_to_bigraph (smiles m) (featurizers (args self)) = Ok graph)
    before graphs ->
  smiles_to_bigraph (smiles mol) (featurizers (args self)) = Raise e ->
  _mols_to_batch self (before ++ mol :: after) = Raise e
  /\ __call__ self (before ++ mol :: after) num_results = Raise e.
Proof.
  intros Hbefore Hmol.
  assert (Hb : _mols_to_batch self (before ++ mol :: after) = Raise e).
  { unfold _mols_to_batch.
    rewrite (traverse_Raise
               (fun m => smiles_to_bigraph (smiles m) (featurizers (args self)))
               before mol after graphs e Hbefore Hmol).
    reflexivity. }
  split; [exact Hb |]. unfold __call__. rewrite Hb. reflexivity.
Qed.

(** X14: an empty batch: once the external model went through, the call
    returns no list, evaluates no candidate, and leaves [top_k] set to
    the number asked for and an empty table of raw predictions, the
    other arguments and the model being as before. *)
Theorem call_empty_batch self num_results batch atom_logits bond_logits parts :
  collate_molgraphs_test [] = Ok batch ->
  predict (args self) (model self) batch = Ok (atom_logits, bond_logits) ->
  get_bg_partition batch = Ok parts ->
  __call__ self [] num_results
  = Ok ([], {| args := {|
                 init := init (args self);
                 featurizers := featurizers (args self);
                 atom_templates := atom_templates (args self);
                 bond_templates := bond_templates (args self);
                 template_infos := template_infos (args self);
                 top_k := Some num_results;
                 raw_predictions := Some []
               |};
               model := model self |}).
Proof.
  intros Hc Hp Hpart. unfold __call__, _mols_to_batch. simpl.
  rewrite Hc. simpl. rewrite Hp. simpl.
  unfold _build_batch_predictions. rewrite Hpart.
  destruct parts as [[graphs nodes_sep] edges_sep]. reflexivity.
Qed.

Lemma traverse_length {A B} (f : A -> result B) (l : list A) (bs : list B) :
  traverse f l = Ok bs -> length bs = length l.
Proof.
  intros Heq. apply traverse_Ok_iff in Heq.
  symmetry. eapply Forall2_length, Heq.
Qed.

Lemma raw_predictions_loop_rows num_results atom_logits bond_logits items :
  forall start_node start_edge rows,
  raw_predictions_loop num_results atom_logits bond_logits items
    start_node start_edge = Ok rows ->
  Forall2 (fun item row =>
             exists raw, row = smiles item.1 :: raw
                         /\ length raw = Z.to_nat num_results)
    items rows.
Proof.
  induction items as [| [input [graph [end_node end_edge]]] items IH];
    intros start_node start_edge rows; simpl.
  - intros Heq. inversion Heq. constructor.
  - destruct (combined_edit _ _ _ _) as [[[types sites] scores] | e];
      [| discriminate]. simpl.
    destruct (traverse _ (range num_results)) as [raw | e] eqn:Hraw;
      [| discriminate]. simpl.
    destruct (raw_predictions_loop _ _ _ items _ _) as [rows' | e] eqn:Hrows;
      [| discriminate]. simpl.
    intros Heq. inversion Heq; subst. constructor; [| eapply IH, Hrows].
    exists raw. split; [reflexivity |].
    apply traverse_length in Hraw. rewrite Hraw.
    unfold range. apply length_seq.
Qed.

Lemma batch_predictions_loop_inv args inputs :
  forall idx results,
  batch_predictions_loop args idx inputs = Ok results ->
  Forall2 (fun input l => PredictionList.input l = input) inputs results.
Proof.
  induction inputs as [| input inputs IH]; intros idx results; simpl.
  - intros Heq. inversion Heq. constructor.
  - destruct (raw_results args idx) as [candidates | e]; [| discriminate].
    simpl. rewrite process_raw_smiles_outputs_probabilities. simpl.
    destruct (batch_predictions_loop args (S idx) inputs) as [rest | e] eqn:Hr;
      [| discriminate].
    simpl. intros Heq. inversion Heq; subst.
    constructor; [reflexivity | eapply IH, Hr].
Qed.

(** X15: what a call that returns leaves behind: the model, the featurizers,
    the initial arguments and the templates are as before; [top_k] is
    the number of results asked for; and the table of raw predictions
    has one row per input that the partition of the batch covers, made of
    the SMILES of the input and of [num_results] rendered candidates
    (none when [num_results] is not positive).  The results stand one
    per input, each for its own input. *)
Theorem call_Ok_state self inputs num_results results self' :
  __call__ self inputs num_results = Ok (results, self') ->
  model self' = model self
  /\ init (args self') = init (args self)
  /\ featurizers (args self') = featurizers (args self)
  /\ atom_templates (args self') = atom_templates (args self)
  /\ bond_templates (args self') = bond_templates (args self)
  /\ template_infos (args self') = template_infos (args self)
  /\ top_k (args self') = Some num_results
  /\ (exists rows,
        raw_predictions (args self') = Some rows
        /\ (length rows <= length inputs)%nat
        /\ Forall (fun row => length row = S (Z.to_nat num_results)) rows
        /\ forall i row, rows !! i = Some row ->
             exists input, inputs !! i = Some input
                           /\ head row = Some (smiles input))
  /\ Forall2 (fun input l => PredictionList.input l = input) inputs results.
Proof.
  unfold __call__. intros Hcall.
  destruct (_mols_to_batch self inputs) as [batch | e]; [| discriminate].
  simpl in Hcall.
  destruct (predict _ _ batch) as [[atom_logits bond_logits] | e];
    [| discriminate].
  simpl in Hcall. unfold _build_batch_predictions in Hcall.
  destruct (get_bg_partition batch) as [[[graphs nodes_sep] edges_sep] | e];
    [| discriminate].
  simpl in Hcall.
  destruct (raw_predictions_loop _ _ _ _ _ _) as [rows | e] eqn:Hrows;
    [| discriminate].
  simpl in Hcall.
  destruct (batch_predictions_loop _ _ inputs) as [res | e] eqn:Hres;
    [| discriminate].
  simpl in Hcall. inversion Hcall; subst; clear Hcall. simpl.
  apply raw_predictions_loop_rows in Hrows.
  apply batch_predictions_loop_inv in Hres.
  repeat split; try reflexivity; [| exact Hres].
  exists rows. repeat split.
  - apply Forall2_length in Hrows. rewrite <- Hrows.
    rewrite length_zip. lia.
  - apply Forall_forall. intros row Hrow.
    apply list_elem_of_lookup in Hrow as [i Hi].
    destruct (Forall2_lookup_r _ _ _ _ _ Hrows Hi)
      as (item & _ & raw & -> & Hlen).
    simpl. rewrite Hlen. reflexivity.
  - intros i row Hi.
    destruct (Forall2_lookup_r _ _ _ _ _ Hrows Hi)
      as (item & Hitem & raw & -> & _).
    apply lookup_zip_with_Some in Hitem
      as (input & rest & -> & Hinput & _).
    exists input. split; [exact Hinput | reflexivity].
Qed.

(** *** Rendering of the raw predictions *)

Lemma render_raw_prediction_short types sites scores i :
  (length types <= i \/ length sites <= i \/ length scores <= i)%nat ->
  render_raw_prediction types sites scores i
  = Raise (IndexError "list index out of range").
Proof.
  intros Hshort. unfold render_raw_prediction, index.
  destruct (types !! i) as [t |] eqn:Ht; [| reflexivity]. simpl.
  destruct (sites !! i) as [s |] eqn:Hs; [| reflexivity]. simpl.
  destruct (scores !! i) as [sc |] eqn:Hsc; [| reflexivity].
  apply lookup_lt_Some in Ht, Hs, Hsc. lia.
Qed.

Lemma render_raw_prediction_long types sites scores i :
  (i < length types /\ i < length sites /\ i < length scores)%nat ->
  exists text, render_raw_prediction types sites scores i = Ok text.
Proof.
  intros (Ht & Hs & Hsc). unfold render_raw_prediction, index.
  apply lookup_lt_is_Some in Ht as [t ->].
  apply lookup_lt_is_Some in Hs as [s ->].
  apply lookup_lt_is_Some in Hsc as [sc ->].
  simpl. eauto.
Qed.

Lemma traverse_render_short types sites scores n :
  (length types < n \/ length sites < n \/ length scores < n)%nat ->
  traverse (render_raw_prediction types sites scores) (seq 0 n)
  = Raise (IndexError "list index out of range").
Proof.
  intros Hshort.
  set (k := (length types `min` (length sites `min` length scores))%nat).
  assert (Hk : (k < n)%nat) by lia.
  replace n with (k + S (n - S k))%nat by lia.
  rewrite seq_app. simpl.
  assert (Hbefore : exists texts,
    Forall2 (fun i text =>
               render_raw_prediction types sites scores i = Ok text)
      (seq 0 k) texts).
  { assert (Hall : forall i, i ∈ seq 0 k ->
      exists text, render_raw_prediction types sites scores i = Ok text).
    { intros i Hi. apply elem_of_seq in Hi.
      apply render_raw_prediction_long. lia. }
    induction (seq 0 k) as [| i l IH].
    - exists []. constructor.
    - destruct (Hall i) as [text Ht]; [left |].
      destruct IH as [texts Hts]; [intros j Hj; apply Hall; right; exact Hj |].
      exists (text :: texts). constructor; assumption. }
  destruct Hbefore as [texts Hts].
  eapply traverse_Raise; [exact Hts |].
  apply render_raw_prediction_short. lia.
Qed.

(** X16: when the external model proposes fewer edits for the first input
    than the number of results asked for, the rendering of the missing
    ones raises an [IndexError]: the call does not fall back on the
    candidates that there are. *)
Theorem build_batch_predictions_too_few self batch num_results input inputs
  atom_logits bond_logits graph graphs end_node nodes_sep end_edge edges_sep
  types sites scores :
  get_bg_partition batch
    = Ok (graph :: graphs, end_node :: nodes_sep, end_edge :: edges_sep) ->
  combined_edit graph (tensor_slice atom_logits 0 end_node)
    (tensor_slice bond_logits 0 end_edge) num_results
    = Ok (types, sites, scores) ->
  Z.of_nat (length types) < num_results
  \/ Z.of_nat (length sites) < num_results
  \/ Z.of_nat (length scores) < num_results ->
  _build_batch_predictions self batch num_results (input :: inputs)
    atom_logits bond_logits
  = Raise (IndexError "list index out of range").
Proof.
  intros Hpart Hedit Hshort.
  unfold _build_batch_predictions. rewrite Hpart. simpl.
  rewrite Hedit. simpl. unfold range.
  rewrite traverse_render_short by lia. reflexivity.
Qed.

(** X17: with a number of results that is not positive nothing is rendered:
    whatever edits the external model proposes, each row of raw
    predictions is the SMILES of its input alone. *)
Theorem raw_predictions_loop_nonpositive num_results atom_logits bond_logits
  items start_node start_edge :
  num_results <= 0 ->
  (forall graph atoms bonds,
     exists edits, combined_edit graph atoms bonds num_results = Ok edits) ->
  raw_predictions_loop num_results atom_logits bond_logits items
    start_node start_edge
  = Ok (map (fun item => [smiles item.1]) items).
Proof.
  intros Hn Hedit. revert start_node start_edge.
  induction items as [| [input [graph [end_node end_edge]]] items IH];
    intros start_node start_edge; simpl; [reflexivity |].
  destruct (Hedit graph (tensor_slice atom_logits start_node end_node)
              (tensor_slice bond_logits start_edge end_edge))
    as [[[types sites] scores] ->].
  simpl. unfold range. replace (Z.to_nat num_results) with 0%nat by lia.
  simpl. rewrite IH. reflexivity.
Qed.

(** *** Decoding *)

End InferenceMore.

(** ** The further properties on the small instances *)

Lemma truncated_truncated_witness :
  (self' ← PredictionList.truncated Example.three 2;
   PredictionList.truncated self' 1)
  = PredictionList.truncated Example.three (Z.min 2 1).
Proof.
  apply (truncated_truncated Example.three 2 1);
    [repeat constructor | lia | lia].
Defined.

Lemma truncated_truncated_negative_witness :
  (self' ← PredictionList.truncated Example.three (-1);
   PredictionList.truncated self' (-1))
  = PredictionList.truncated Example.three (-1 + -1).
Proof.
  apply (truncated_truncated_negative Example.three (-1) (-1));
    [repeat constructor | lia | lia].
Defined.

Lemma truncated_all_witness :
  PredictionList.truncated Example.three 5 = Ok Example.three.
Proof.
  apply (truncated_all Example.three 5); [repeat constructor | simpl; lia].
Defined.

Lemma truncated_Ok_prefix_witness :
  PredictionList.constructed
    (PredictionList.mk "CCO"
       [Example.prediction 0.5; Example.prediction 0.25]%float None)
  /\ exists dropped,
       PredictionList.predictions Faulty.spoilt
       = [Example.prediction 0.5; Example.prediction 0.25]%float ++ dropped.
Proof.
  destruct (truncated_Ok_prefix Faulty.spoilt 2
              (PredictionList.mk "CCO"
                 [Example.prediction 0.5; Example.prediction 0.25]%float None)
              eq_refl) as (Hc & Hprefix & _).
  split; [exact Hc | exact Hprefix].
Defined.

(** The spoilt prediction is the third one: two predictions can be kept,
    three cannot. *)
Example truncated_spoilt :
  PredictionList.truncated Faulty.spoilt 2
  = Ok (PredictionList.mk "CCO"
          [Example.prediction 0.5; Example.prediction 0.25]%float None)
  /\ PredictionList.truncated Faulty.spoilt 3
     = Raise (ValidationError "PredictionList"
         ["Probability can be stored as probability or log probability, not both"]).
Proof. split; reflexivity. Qed.

Lemma get_log_prob_nonpositive_probability_witness :
  Prediction.new (Example.prediction 0) = Ok (Example.prediction 0)
  /\ Prediction.get_prob series_exp (Example.prediction 0) = Ok 0%float
  /\ Prediction.get_log_prob series_log (Example.prediction 0)
     = Raise (ValueError "math domain error").
Proof.
  apply (get_log_prob_nonpositive_probability series_exp series_log
           "CCO" tt None None None None 0%float).
  reflexivity.
Defined.

Lemma direction_left_open_witness :
  ReactionModel.is_forward (Self := unit) (Params := unit)
    [@ReactionModel.Build_methods unit unit None None None] tt
  = Ok ReactionModel.PyNone
  /\ ReactionModel.is_backward (Self := unit) (Params := unit)
       [@ReactionModel.Build_methods unit unit None None None] tt
     = Ok (ReactionModel.PyBool true).
Proof.
  apply (direction_left_open (Self := unit) (Params := unit)
           [@ReactionModel.Build_methods unit unit None None None] tt).
  reflexivity.
Defined.

Lemma is_backward_follows_override_witness :
  ReactionModel.is_backward (Self := unit) (Params := unit)
    [@ReactionModel.Build_methods unit unit
       (Some (fun _ => Ok (ReactionModel.PyBool true))) None None;
     ReactionModel.BackwardReactionModel] tt
  = Ok (ReactionModel.PyBool false).
Proof.
  destruct (is_backward_follows_override (Self := unit) (Params := unit)
              (@ReactionModel.Build_methods unit unit
                 (Some (fun _ => Ok (ReactionModel.PyBool true))) None None)
              [ReactionModel.BackwardReactionModel] tt
              (fun _ => Ok (ReactionModel.PyBool true))
              eq_refl eq_refl eq_refl) as (_ & Hneg & _).
  exact (Hneg true eq_refl).
Defined.

Lemma init_Ok_inv_witness :
  get_unique_file_in_dir Example.complete "m" "*.pth" = Ok "m/model.pth"
  /\ Path.str (LocalRetroModel.data_dir
                 (LocalRetroModel.init (LocalRetroModel.args Example.adapter)))
     = "m/data".
Proof.
  destruct (init_Ok_inv Example.complete "m" "cpu" Example.adapter)
    as (Hpth & _ & _ & _ & Hdata & _).
  - vm_compute. reflexivity.
  - split; [exact Hpth | rewrite Hdata; reflexivity].
Defined.

(** The [data] directory of a model directory, for the ways of writing
    the latter: empty, with a trailing slash, absolute, with repeated
    slashes and dots. *)
Example data_dir_examples :
  map (fun model_dir =>
         Path.str (Path.truediv (Path.Path model_dir) "data"))
    [""; "."; "m"; "m/"; "/"; "/srv/m"; "//m"; "///m"; "a/./b//c/"; ".."]
  = ["data"; "data"; "m/data"; "m/data"; "/data"; "/srv/m/data"; "//m/data";
     "/m/data"; "a/b/c/data"; "../data"].
Proof. vm_compute. reflexivity. Qed.

Lemma mols_to_batch_Ok_iff_witness :
  exists graphs,
    Forall2 (fun mol graph =>
               LocalRetroModel.smiles_to_bigraph (smiles mol) tt = Ok graph)
      [Example.ethanol; Example.ethanol] graphs
    /\ LocalRetroModel.collate_molgraphs_test graphs = Ok ["CCO"; "CCO"].
Proof.
  apply (proj1 (mols_to_batch_Ok_iff Example.adapter
                  [Example.ethanol; Example.ethanol] ["CCO"; "CCO"])).
  reflexivity.
Defined.

Lemma mols_to_batch_first_failure_witness :
  LocalRetroModel._mols_to_batch Faulty.adapter
    [Example.ethanol; {| smiles := "" |}; Example.ethanol]
  = Raise (ExternalError "invalid SMILES")
  /\ LocalRetroModel.__call__ Faulty.adapter
       [Example.ethanol; {| smiles := "" |}; Example.ethanol] 2
     = Raise (ExternalError "invalid SMILES").
Proof.
  apply (@mols_to_batch_first_failure Faulty.external Faulty.adapter
           [Example.ethanol] {| smiles := "" |} [Example.ethanol] ["CCO"]
           (ExternalError "invalid SMILES") 2).
  - repeat constructor.
  - reflexivity.
Defined.

Lemma call_empty_batch_witness :
  exists self',
    LocalRetroModel.__call__ Example.adapter [] 3 = Ok ([], self')
    /\ LocalRetroModel.top_k (LocalRetroModel.args self') = Some 3
    /\ LocalRetroModel.raw_predictions (LocalRetroModel.args self') = Some [].
Proof.
  eexists. split.
  - apply (call_empty_batch Example.adapter 3 [] [0.5; 0.25]%float
             [0.5; 0.25]%float ([], [], [])); reflexivity.
  - split; reflexivity.
Defined.

Lemma call_Ok_state_witness :
  exists results self',
    LocalRetroModel.__call__ Example.adapter [Example.ethanol] 2
    = Ok (results, self')
    /\ LocalRetroModel.top_k (LocalRetroModel.args self') = Some 2
    /\ LocalRetroModel.model self' = LocalRetroModel.model Example.adapter.
Proof.
  destruct (LocalRetroModel.__call__ Example.adapter [Example.ethanol] 2)
    as [[results self'] | e] eqn:Hcall; [| vm_compute in Hcall; discriminate].
  exists results, self'.
  destruct (call_Ok_state Example.adapter [Example.ethanol] 2 results self'
              Hcall) as (Hmodel & _ & _ & _ & _ & _ & Htop & _).
  repeat split; assumption.
Defined.

Lemma build_batch_predictions_too_few_witness :
  @LocalRetroModel._build_batch_predictions Faulty.external Faulty.adapter
    ["CCO"] 2 [Example.ethanol] [0.5; 0.25]%float [0.5; 0.25]%float
  = Raise (IndexError "list index out of range").
Proof.
  apply (@build_batch_predictions_too_few Faulty.external Faulty.adapter
           ["CCO"] 2 Example.ethanol [] [0.5; 0.25]%float [0.5; 0.25]%float
           "CCO" [] 1 [] 1 [] ["a"] [(0%nat, 1%nat)] [0.875%float]).
  - reflexivity.
  - reflexivity.
  - left. simpl. lia.
Defined.

Lemma raw_predictions_loop_nonpositive_witness :
  @LocalRetroModel.raw_predictions_loop Example.external 0 [0.5]%float [0.5]%float
    [(Example.ethanol, ("CCO", (1, 1)))] 0 0
  = Ok [["CCO"]].
Proof.
  apply (@raw_predictions_loop_nonpositive Example.external 0 [0.5]%float [0.5]%float
           [(Example.ethanol, ("CCO", (1, 1)))] 0 0).
  - lia.
  - intros graph atoms bonds. eexists. reflexivity.
Defined.

